(** * Notebook cell editor options: a shallow embedding and its properties

    Source: src/vs/workbench/contrib/notebook/browser/view/renderers/cellEditorOptions.ts

    The file embeds the [CellEditorOptions] adapter (the merge of editor
    options for one notebook cell editor, its read accessor and its
    line-number mutator) and the two line-number toggle actions, and proves
    the properties stated about them.

    Conventions of the embedding:
    - a JavaScript object used as an options bag is a finite map from the
      names of its own properties to their values ([gmap string value]);
      prototypes are not modelled, and an assignment that would reach the
      [__proto__] accessor adds no entry ([Js.assign]);
    - the options object cached in [this._value] lives in a store of
      objects and is named by a location, so that patching it in place and
      copying it are different things;
    - a value that may be [undefined] is an [option];
    - a member access on a possibly undefined receiver is a computation
      that may throw ([completion]). *)

From Stdlib Require Import ZArith String Ascii.
From stdpp Require Import base option gmap strings list fin_maps functions.

#[local] Set Warnings "-register-all".
#[local] Open Scope string_scope.

(* ===================================================================== *)
(** ** JavaScript values and objects *)
(* ===================================================================== *)

Module Js.

(** The values that occur in editor option bags.  Numbers that occur in
    the source are small integers (pixel sizes, lane counts). *)
Inductive value : Type :=
| VUndefined
| VNull
| VBool (b : bool)
| VNum (n : Z)
| VStr (s : string)
| VObj (fields : gmap string value).

(** Property read [o.k]: an absent property reads as [undefined]. *)
Definition prop (o : gmap string value) (k : string) : value :=
  default VUndefined (o !! k).

(** [v === s] for a string literal [s]. *)
Definition strict_equals_str (v : value) (s : string) : bool :=
  match v with
  | VStr s' => String.eqb s' s
  | _ => false
  end.

(** [v === b] for a boolean [b]. *)
Definition strict_equals_bool (v : value) (b : bool) : bool :=
  match v with
  | VBool b' => Bool.eqb b' b
  | _ => false
  end.

(** Object spread inside an object literal: [{ ...target, ...source }].
    Every own property of [source] is written over [target]; stdpp's
    union keeps the left operand on a conflict, hence the order. *)
Definition spread (target source : gmap string value) : gmap string value :=
  source ∪ target.

(** Property assignment [o[k] = v] on an object created by [{}] whose
    prototype is still [Object.prototype].  For the key ["__proto__"] the
    assignment runs the accessor inherited from [Object.prototype]: it
    changes the prototype of [o] at most and adds no own property.  The
    prototype is not part of the model: the objects built here are only
    read through spreads, which copy own properties. *)
Definition assign (o : gmap string value) (k : string) (v : value) : gmap string value :=
  if String.eqb k "__proto__" then o else <[k := v]> o.

(** [s.indexOf(pat)]: the first position of [pat] in [s], or -1. *)
Definition indexOf (s pat : string) : Z :=
  match String.index 0 pat s with
  | Some n => Z.of_nat n
  | None => (-1)%Z
  end.

(** [s.substr(start)]: the rest of [s] from position [start]. *)
Definition substr (s : string) (start : nat) : string :=
  String.substring start (String.length s - start) s.

(** The store of option objects; a location names one object. *)
Abbreviation loc := nat (only parsing).

Definition alloc (h : gmap loc (gmap string value)) (o : gmap string value)
  : loc * gmap loc (gmap string value) :=
  let l := fresh (dom h) in (l, <[l := o]> h).

(** Property write [l.k = v] on the object at [l]. *)
Definition set_prop (h : gmap loc (gmap string value)) (l : loc)
    (k : string) (v : value) : gmap loc (gmap string value) :=
  alter (fun o => <[k := v]> o) l h.

(** The outcome of running a statement: normal completion with a result,
    or a thrown error. *)
Inductive completion (A : Type) : Type :=
| Normal (a : A)
| Throw (error : string).
Arguments Normal {A} a.
Arguments Throw {A} error.

#[global] Instance completion_ret : MRet completion := fun A a => Normal a.

#[global] Instance completion_bind : MBind completion := fun A B k c =>
  match c with
  | Normal a => k a
  | Throw e => Throw e
  end.

#[global] Instance completion_fmap : FMap completion := fun A B f c =>
  match c with
  | Normal a => Normal (f a)
  | Throw e => Throw e
  end.

(** Member access [receiver.m] where [receiver] may be [undefined]:
    a [TypeError] is thrown in that case. *)
Definition member {A B} (receiver : option A) (m : A -> B) : completion B :=
  match receiver with
  | Some r => Normal (m r)
  | None => Throw "TypeError"
  end.

(** Truthiness of a possibly undefined object reference. *)
Definition truthy {A} (x : option A) : bool :=
  match x with Some _ => true | None => false end.

End Js.

Import Js.

(* ===================================================================== *)
(** ** The collaborators, as far as this file uses them *)
(* ===================================================================== *)

(** ['on' | 'off' | 'inherit'] *)
Inductive LineNumberMode : Type := on | off | inherit.

#[global] Instance LineNumberMode_eq_dec : EqDecision LineNumberMode.
Proof. solve_decision. Defined.

Definition mode_value (m : LineNumberMode) : value :=
  match m with
  | on => VStr "on"
  | off => VStr "off"
  | inherit => VStr "inherit"
  end.

(** [IConfigurationService]: the stored settings by full key, and the
    ['editor'] section as resolved under a language override. *)
Module IConfigurationService.

Record t : Type := {
  settings : gmap string value;
  editorSection : string -> gmap string value
}.

(** [getValue(key)]: a key with no stored value reads as [undefined]. *)
Definition getValue (cfg : t) (key : string) : value :=
  default VUndefined (settings cfg !! key).

(** [getValue('editor', { overrideIdentifier })] *)
Definition getValue_editor (cfg : t) (overrideIdentifier : string) : gmap string value :=
  editorSection cfg overrideIdentifier.

(** [updateValue(key, value)] *)
Definition updateValue (cfg : t) (key : string) (v : value) : t :=
  {| settings := <[key := v]> (settings cfg);
     editorSection := editorSection cfg |}.

End IConfigurationService.

(** [deepClone]: objects are modelled by their contents, so a deep copy of
    an option bag has the same contents. *)
Definition deepClone (o : gmap string value) : gmap string value := o.

(** A cell view model is named by a reference. *)
Abbreviation ICellViewModel := nat (only parsing).

Record NotebookViewModelOptions : Type := { isReadOnly : bool }.
Record NotebookViewModel : Type := { options : NotebookViewModelOptions }.

(** [INotebookEditor] *)
Record INotebookEditor : Type := {
  hasModel : bool;
  viewModel : option NotebookViewModel;
  getActiveCell : option ICellViewModel
}.

(** [{ top, bottom }] *)
Definition padding_value (top bottom : Z) : value :=
  VObj {[ "top" := VNum top; "bottom" := VNum bottom ]}.

(* ===================================================================== *)
(** ** class CellEditorOptions *)
(* ===================================================================== *)

Module CellEditorOptions.
Section WithMetadata.

(** [NotebookCellInternalMetadata] is declared outside this file. *)
Context {NotebookCellInternalMetadata : Type}.

(** [NotebookOptions]: the layout configuration's
    [editorOptionsCustomizations] (possibly absent) and the padding
    callback. *)
Record NotebookOptions : Type := {
  editorOptionsCustomizations : option (gmap string value);
  computeEditorPadding : NotebookCellInternalMetadata -> value
}.

(** The collaborators an adapter is bound to, in their current state. *)
Record Services : Type := {
  configurationService : IConfigurationService.t;
  notebookOptions : NotebookOptions;
  notebookEditor : INotebookEditor
}.

(** The adapter's own fields.  [_onDidChange] counts the notifications
    fired so far. *)
Record t : Type := {
  _value : loc;
  _lineNumbers : LineNumberMode;
  _onDidChange : nat;
  language : string
}.

(** [private static fixedEditorOptions] *)
Definition fixedEditorOptions : gmap string value :=
  {[ "scrollBeyondLastLine" := VBool false;
     "scrollbar" := VObj {[ "verticalScrollbarSize" := VNum 14;
                            "horizontal" := VStr "auto";
                            "useShadows" := VBool true;
                            "verticalHasArrows" := VBool false;
                            "horizontalHasArrows" := VBool false;
                            "alwaysConsumeMouseWheel" := VBool false ]};
     "renderLineHighlightOnlyWhenFocus" := VBool true;
     "overviewRulerLanes" := VNum 0;
     "selectOnLineNumbers" := VBool false;
     "lineNumbers" := VStr "off";
     "lineDecorationsWidth" := VNum 0;
     "folding" := VBool false;
     "fixedOverflowWidgets" := VBool true;
     "minimap" := VObj {[ "enabled" := VBool false ]};
     "renderValidationDecorations" := VStr "on";
     "lineNumbersMinChars" := VNum 3 ]}.

(** The body of the [for (let key in editorOptionsOverrideRaw)] loop: one
    step per enumerated property, accumulating into
    [editorOptionsOverride].  The keys of the raw mapping are distinct and
    so are their suffixes, so the key ["__proto__"] is assigned at most
    once, on an object whose prototype is still [Object.prototype]. *)
Definition override_step (key : string) (v : value)
    (editorOptionsOverride : gmap string value) : gmap string value :=
  if (indexOf key "editor." =? 0)%Z
  then assign editorOptionsOverride (substr key 7) v
  else editorOptionsOverride.

(** [editorOptionsOverride] as the loop leaves it, from
    [layoutConfig.editorOptionsCustomizations]. *)
Definition editorOptionsOverride_of (customizations : option (gmap string value))
  : gmap string value :=
  let editorOptionsOverrideRaw := default ∅ customizations in
  map_fold override_step ∅ editorOptionsOverrideRaw.

(** The object literal [computed] of [_computeEditorOptions]. *)
Definition computed (s : Services) (language : string) : gmap string value :=
  let renderLineNumbers :=
    strict_equals_str
      (IConfigurationService.getValue (configurationService s) "notebook.lineNumbers")
      "on" in
  let lineNumbers := if renderLineNumbers then VStr "on" else VStr "off" in
  let editorOptions :=
    deepClone (IConfigurationService.getValue_editor (configurationService s) language) in
  let editorOptionsOverride :=
    editorOptionsOverride_of (editorOptionsCustomizations (notebookOptions s)) in
  <["readOnly" :=
      VBool (default false
               ((fun vm => isReadOnly (options vm)) <$> viewModel (notebookEditor s)))]>
    (spread
       (spread
          (spread
             (spread
                (spread ∅ editorOptions)
                fixedEditorOptions)
             {[ "lineNumbers" := lineNumbers;
                "folding" := VBool (strict_equals_str lineNumbers "on") ]})
          editorOptionsOverride)
       {[ "padding" := padding_value 12 12 ]}).

(** [_computeEditorOptions()]: returns a new object. *)
Definition _computeEditorOptions (s : Services) (language : string)
    (h : gmap loc (gmap string value)) : loc * gmap loc (gmap string value) :=
  alloc h (computed s language).

(** The constructor, after its subscriptions (which only install
    callbacks): [this._value = this._computeEditorOptions()]. *)
Definition constructor (s : Services) (language : string)
    (h : gmap loc (gmap string value)) : t * gmap loc (gmap string value) :=
  let '(l, h') := _computeEditorOptions s language h in
  ({| _value := l; _lineNumbers := inherit; _onDidChange := 0; language := language |}, h').

(** [_recomputeOptions()] *)
Definition _recomputeOptions (s : Services) (this : t)
    (h : gmap loc (gmap string value)) : t * gmap loc (gmap string value) :=
  let '(l, h') := _computeEditorOptions s (language this) h in
  ({| _value := l; _lineNumbers := _lineNumbers this;
      _onDidChange := S (_onDidChange this); language := language this |}, h').

(** [getValue(internalMetadata?)]: a new object, the spread of
    [this._value] and then of the padding.  The spread of a location that
    holds no object copies nothing. *)
Definition getValue (s : Services) (this : t)
    (internalMetadata : option NotebookCellInternalMetadata)
    (h : gmap loc (gmap string value)) : loc * gmap loc (gmap string value) :=
  alloc h
    (spread
       (spread ∅ (default ∅ (h !! _value this)))
       {[ "padding" :=
            match internalMetadata with
            | Some m => computeEditorPadding (notebookOptions s) m
            | None => padding_value 12 12
            end ]}).

(** [setLineNumbers(lineNumbers)] *)
Definition setLineNumbers (s : Services) (this : t) (lineNumbers : LineNumberMode)
    (h : gmap loc (gmap string value)) : t * gmap loc (gmap string value) :=
  let this1 := {| _value := _value this; _lineNumbers := lineNumbers;
                  _onDidChange := _onDidChange this; language := language this |} in
  let h' :=
    match _lineNumbers this1 with
    | inherit =>
        let renderLiNumbers :=
          strict_equals_str
            (IConfigurationService.getValue (configurationService s) "notebook.lineNumbers")
            "on" in
        let lineNumbers := if renderLiNumbers then VStr "on" else VStr "off" in
        let h1 := set_prop h (_value this1) "lineNumbers" lineNumbers in
        set_prop h1 (_value this1) "folding" (VBool (strict_equals_str lineNumbers "on"))
    | _ =>
        let h1 := set_prop h (_value this1) "lineNumbers" (mode_value lineNumbers) in
        set_prop h1 (_value this1) "folding"
          (VBool (strict_equals_str (mode_value lineNumbers) "on"))
    end in
  ({| _value := _value this1; _lineNumbers := _lineNumbers this1;
      _onDidChange := S (_onDidChange this1); language := language this1 |}, h').

End WithMetadata.

Arguments NotebookOptions : clear implicits.
Arguments Services : clear implicits.

End CellEditorOptions.

(* ===================================================================== *)
(** ** The two toggle actions *)
(* ===================================================================== *)

(** What the actions reach through their [ServicesAccessor] and through
    cell references: the configuration service, the editor service's
    active pane, and every cell's [lineNumbers] property. *)
Record World {EditorPane : Type} : Type := {
  w_configurationService : IConfigurationService.t;
  activeEditorPane : option EditorPane;
  cell_lineNumbers : ICellViewModel -> LineNumberMode
}.
Arguments World : clear implicits.

(** [notebook.toggleLineNumbers] *)
Module ToggleLineNumberAction.

Definition run {EditorPane : Type} (accessor : World EditorPane) : World EditorPane :=
  let configurationService := w_configurationService accessor in
  let renderLiNumbers :=
    strict_equals_str
      (IConfigurationService.getValue configurationService "notebook.lineNumbers") "on" in
  if renderLiNumbers
  then {| w_configurationService :=
            IConfigurationService.updateValue configurationService
              "notebook.lineNumbers" (VStr "off");
          activeEditorPane := activeEditorPane accessor;
          cell_lineNumbers := cell_lineNumbers accessor |}
  else {| w_configurationService :=
            IConfigurationService.updateValue configurationService
              "notebook.lineNumbers" (VStr "on");
          activeEditorPane := activeEditorPane accessor;
          cell_lineNumbers := cell_lineNumbers accessor |}.

End ToggleLineNumberAction.

(** [notebook.cell.toggleLineNumbers] *)
Module ToggleActiveLineNumberAction.
Section WithEditorPane.

Context {EditorPane : Type}.

(** [getNotebookEditorFromEditorPane] is imported from another file. *)
Variable getNotebookEditorFromEditorPane : option EditorPane -> option INotebookEditor.

(** The optional argument [context?: { cell: ICellViewModel }]; at run
    time the [cell] property may be missing. *)
Record CellContext : Type := { cell : option ICellViewModel }.

(** The statement [if (cell) { ... }] that ends [run]. *)
Definition toggle (accessor : World EditorPane) (cell : option ICellViewModel)
  : World EditorPane :=
  match cell with
  | Some cell =>
      let configurationService := w_configurationService accessor in
      let renderLineNumbers :=
        strict_equals_str
          (IConfigurationService.getValue configurationService "notebook.lineNumbers")
          "on" in
      let cellLineNumbers := cell_lineNumbers accessor cell in
      let currentLineNumberIsOn :=
        strict_equals_str (mode_value cellLineNumbers) "on"
        || (strict_equals_str (mode_value cellLineNumbers) "inherit" && renderLineNumbers) in
      if currentLineNumberIsOn
      then {| w_configurationService := w_configurationService accessor;
              activeEditorPane := activeEditorPane accessor;
              cell_lineNumbers := <[cell := off]> (cell_lineNumbers accessor) |}
      else {| w_configurationService := w_configurationService accessor;
              activeEditorPane := activeEditorPane accessor;
              cell_lineNumbers := <[cell := on]> (cell_lineNumbers accessor) |}
  | None => accessor
  end.

Definition run (accessor : World EditorPane) (context : option CellContext)
  : completion (World EditorPane) :=
  let cell := context ≫= cell in
  if negb (truthy cell) then
    let editor := getNotebookEditorFromEditorPane (activeEditorPane accessor) in
    no_editor ←
      (if negb (truthy editor) then mret true
       else has ← member editor hasModel; mret (negb has));
    if no_editor : bool then mret accessor
    else
      cell ← member editor getActiveCell;
      mret (toggle accessor cell)
  else mret (toggle accessor cell).

End WithEditorPane.
End ToggleActiveLineNumberAction.

(* ===================================================================== *)
(** ** The stated properties, as definitions *)
(* ===================================================================== *)

(** [o.folding === (o.lineNumbers === 'on')] *)
Definition folding_follows_lineNumbers (o : gmap string value) : bool :=
  strict_equals_bool (prop o "folding") (strict_equals_str (prop o "lineNumbers") "on").

(** The object cached in [this._value], after an operation that returned
    the adapter and the store, satisfies [P]. *)
Definition cached_satisfies (P : gmap string value -> bool)
    (r : CellEditorOptions.t * gmap nat (gmap string value)) : Prop :=
  exists o, r.2 !! CellEditorOptions._value r.1 = Some o /\ P o = true.

(** A merge of layers given in order, later entries winning on a key
    conflict: the value of a key is that of the last layer that has it. *)
Fixpoint later_wins (layers : list (gmap string value)) (k : string) : option value :=
  match layers with
  | [] => None
  | layer :: rest =>
      match later_wins rest k with
      | Some v => Some v
      | None => layer !! k
      end
  end.

(** The six layers of the recomputation, in the stated order. *)
Definition stated_layers {M : Type} (s : CellEditorOptions.Services M) (language : string)
  : list (gmap string value) :=
  let cfg := CellEditorOptions.configurationService s in
  let lineNumbers :=
    if strict_equals_str (IConfigurationService.getValue cfg "notebook.lineNumbers") "on"
    then VStr "on" else VStr "off" in
  [ IConfigurationService.getValue_editor cfg language;
    CellEditorOptions.fixedEditorOptions;
    {[ "lineNumbers" := lineNumbers;
       "folding" := VBool (strict_equals_str lineNumbers "on") ]};
    CellEditorOptions.editorOptionsOverride_of
      (CellEditorOptions.editorOptionsCustomizations (CellEditorOptions.notebookOptions s));
    {[ "padding" := padding_value 12 12 ]};
    {[ "readOnly" :=
         VBool (match viewModel (CellEditorOptions.notebookEditor s) with
                | Some vm => isReadOnly (options vm)
                | None => false
                end) ]} ].

(** The truth table of the per-cell toggle: the new per-cell mode from the
    current per-cell mode and the notebook-wide flag. *)
Definition stated_new_mode (cellLineNumbers : LineNumberMode) (renderLineNumbers : bool)
  : LineNumberMode :=
  match cellLineNumbers, renderLineNumbers with
  | on, _ => off
  | off, _ => on
  | inherit, true => off
  | inherit, false => on
  end.

(** The value [setLineNumbers] writes as [lineNumbers]. *)
Definition stated_lineNumbers (cfg : IConfigurationService.t) (mode : LineNumberMode)
  : value :=
  match mode with
  | inherit =>
      if strict_equals_str (IConfigurationService.getValue cfg "notebook.lineNumbers") "on"
      then VStr "on" else VStr "off"
  | on => VStr "on"
  | off => VStr "off"
  end.

(** The configuration with the notebook-wide setting stored as ['off']. *)
Definition with_lineNumbers_off (cfg : IConfigurationService.t) : IConfigurationService.t :=
  IConfigurationService.updateValue cfg "notebook.lineNumbers" (VStr "off").

(* ===================================================================== *)
(** ** Sample states *)
(* ===================================================================== *)

Module Sample.

Import CellEditorOptions.

Definition editor_section : gmap string value :=
  {[ "fontSize" := VNum 14; "minimap" := VObj {[ "enabled" := VBool true ]} ]}.

(** [notebook.lineNumbers] stored as ['off'], as ['on'], as an invalid
    value, and not stored. *)
Definition cfg_off : IConfigurationService.t :=
  {| IConfigurationService.settings := {[ "notebook.lineNumbers" := VStr "off" ]};
     IConfigurationService.editorSection := fun _ => editor_section |}.

Definition cfg_on : IConfigurationService.t :=
  {| IConfigurationService.settings := {[ "notebook.lineNumbers" := VStr "on" ]};
     IConfigurationService.editorSection := fun _ => editor_section |}.

Definition cfg_invalid : IConfigurationService.t :=
  {| IConfigurationService.settings := {[ "notebook.lineNumbers" := VStr "relative" ]};
     IConfigurationService.editorSection := fun _ => editor_section |}.

Definition cfg_absent : IConfigurationService.t :=
  {| IConfigurationService.settings := ∅;
     IConfigurationService.editorSection := fun _ => editor_section |}.

(** Layout customizations: one that sets [editor.folding], one that sets
    [editor.fontSize] next to a key outside the prefix. *)
Definition options_folding : NotebookOptions unit :=
  {| editorOptionsCustomizations := Some {[ "editor.folding" := VBool true ]};
     computeEditorPadding := fun _ => padding_value 12 34 |}.

Definition options_fontSize : NotebookOptions unit :=
  {| editorOptionsCustomizations :=
       Some {[ "editor.fontSize" := VNum 20; "notebook.cellToolbar" := VBool true ]};
     computeEditorPadding := fun _ => padding_value 12 34 |}.

Definition editor_without_model : INotebookEditor :=
  {| hasModel := false; viewModel := None; getActiveCell := None |}.

Definition editor_with_model : INotebookEditor :=
  {| hasModel := true;
     viewModel := Some {| options := {| isReadOnly := true |} |};
     getActiveCell := Some 2 |}.

Definition services (cfg : IConfigurationService.t) (o : NotebookOptions unit)
  : Services unit :=
  {| configurationService := cfg; notebookOptions := o;
     notebookEditor := editor_with_model |}.

(** A freshly constructed adapter and its store. *)
Definition adapter : t * gmap nat (gmap string value) :=
  constructor (services cfg_off options_fontSize) "python" ∅.

(** The world of the actions: three cells in modes on, off, inherit. *)
Definition cells (c : nat) : LineNumberMode :=
  match c with 0 => on | 1 => off | _ => inherit end.

Definition world (cfg : IConfigurationService.t) (pane : option unit) : World unit :=
  {| w_configurationService := cfg; activeEditorPane := pane; cell_lineNumbers := cells |}.

(** A pane resolver that finds no notebook editor, and one that finds
    [editor_with_model] behind every pane. *)
Definition no_editor (pane : option unit) : option INotebookEditor := None.

Definition some_editor (pane : option unit) : option INotebookEditor :=
  match pane with Some _ => Some editor_with_model | None => None end.

End Sample.

(* ===================================================================== *)
(** ** The constructor's subscriptions and the adapter's life *)
(* ===================================================================== *)

Module Subscriptions.
Section WithMetadata.

Import CellEditorOptions.

Context {NotebookCellInternalMetadata : Type}.

(** [IConfigurationChangeEvent], as the adapter uses it. *)
Record IConfigurationChangeEvent : Type := {
  affectsConfiguration : string -> bool
}.

(** [NotebookOptionsChangeEvent]: the four flags the adapter reads. *)
Record NotebookOptionsChangeEvent : Type := {
  cellStatusBarVisibility : bool;
  editorTopPadding : bool;
  editorOptionsCustomizations : bool;
  cellBreakpointMargin : bool
}.

(** An adapter with its [_localDisposableStore]: the listeners it holds on
    [viewModel.onDidChangeOptions], each named by the view model it
    listens to. *)
Record instance : Type := {
  this : CellEditorOptions.t;
  _localDisposableStore : list NotebookViewModel
}.

(** [hasModel()] is a type guard: when it answers true the editor has a
    view model. *)
Definition guard_ok (editor : INotebookEditor) : bool :=
  implb (hasModel editor) (truthy (viewModel editor)).

(** Run [_recomputeOptions] on the adapter of an instance. *)
Definition recompute (s : Services NotebookCellInternalMetadata) (a : instance)
    (h : gmap loc (gmap string value)) : instance * gmap loc (gmap string value) :=
  let '(this', h') := _recomputeOptions s (this a) h in
  ({| this := this'; _localDisposableStore := _localDisposableStore a |}, h').

(** The constructor with its subscriptions: the listener on the view
    model is added when the editor has a model, then [_value] is computed. *)
Definition new (s : Services NotebookCellInternalMetadata) (language : string)
    (h : gmap loc (gmap string value))
  : completion (instance * gmap loc (gmap string value)) :=
  store ←
    (if hasModel (notebookEditor s)
     then listener ← member (viewModel (notebookEditor s)) (fun vm => vm); mret [listener]
     else mret []);
  let '(this0, h') := constructor s language h in
  mret ({| this := this0; _localDisposableStore := store |}, h').

(** The listener on [configurationService.onDidChangeConfiguration]. *)
Definition onDidChangeConfiguration (s : Services NotebookCellInternalMetadata)
    (e : IConfigurationChangeEvent) (a : instance) (h : gmap loc (gmap string value))
  : instance * gmap loc (gmap string value) :=
  if affectsConfiguration e "editor" || affectsConfiguration e "notebook"
  then recompute s a h
  else (a, h).

(** The listener on [notebookOptions.onDidChangeOptions]. *)
Definition onDidChangeOptions (s : Services NotebookCellInternalMetadata)
    (e : NotebookOptionsChangeEvent) (a : instance) (h : gmap loc (gmap string value))
  : instance * gmap loc (gmap string value) :=
  if cellStatusBarVisibility e || editorTopPadding e || editorOptionsCustomizations e
     || cellBreakpointMargin e
  then recompute s a h
  else (a, h).

(** The listener on [notebookEditor.onDidChangeModel]. *)
Definition onDidChangeModel (s : Services NotebookCellInternalMetadata)
    (a : instance) (h : gmap loc (gmap string value))
  : completion (instance * gmap loc (gmap string value)) :=
  let cleared := {| this := this a; _localDisposableStore := [] |} in
  if hasModel (notebookEditor s)
  then
    listener ← member (viewModel (notebookEditor s)) (fun vm => vm);
    let added := {| this := this cleared;
                    _localDisposableStore := _localDisposableStore cleared ++ [listener] |} in
    mret (recompute s added h)
  else mret (cleared, h).

(** What can happen to a constructed adapter: one of its listeners runs,
    or one of its two public methods is called. *)
Inductive Call : Type :=
| ConfigurationChange (e : IConfigurationChangeEvent)
| OptionsChange (e : NotebookOptionsChangeEvent)
| ModelChange
| ViewModelOptionsChange (listener : nat)
| SetLineNumbers (lineNumbers : LineNumberMode)
| GetValue (internalMetadata : option NotebookCellInternalMetadata).

(** One call, with the collaborators in their state at that moment.  A view
    model listener runs only while it is in the local store. *)
Definition dispatch (s : Services NotebookCellInternalMetadata) (c : Call)
    (a : instance) (h : gmap loc (gmap string value))
  : completion (instance * gmap loc (gmap string value)) :=
  match c with
  | ConfigurationChange e => mret (onDidChangeConfiguration s e a h)
  | OptionsChange e => mret (onDidChangeOptions s e a h)
  | ModelChange => onDidChangeModel s a h
  | ViewModelOptionsChange listener =>
      match _localDisposableStore a !! listener with
      | Some _ => mret (recompute s a h)
      | None => mret (a, h)
      end
  | SetLineNumbers lineNumbers =>
      let '(this', h') := setLineNumbers s (this a) lineNumbers h in
      mret ({| this := this'; _localDisposableStore := _localDisposableStore a |}, h')
  | GetValue internalMetadata =>
      mret (a, (getValue s (this a) internalMetadata h).2)
  end.

(** A sequence of calls. *)
Fixpoint play (calls : list (Services NotebookCellInternalMetadata * Call))
    (a : instance) (h : gmap loc (gmap string value))
  : completion (instance * gmap loc (gmap string value)) :=
  match calls with
  | [] => mret (a, h)
  | (s, c) :: rest =>
      r ← dispatch s c a h;
      play rest r.1 r.2
  end.

(** Every editor seen during the calls respects the type guard. *)
Definition guards_ok (calls : list (Services NotebookCellInternalMetadata * Call)) : bool :=
  forallb (fun sc => guard_ok (notebookEditor sc.1)) calls.

(** A call that the listeners' tests let pass without recomputation: a
    configuration change outside the two sections, an options change with
    none of the four flags, a view model listener that is not in the local
    store, and a read. *)
Definition ignored (a : instance) (c : Call) : bool :=
  match c with
  | ConfigurationChange e =>
      negb (affectsConfiguration e "editor") && negb (affectsConfiguration e "notebook")
  | OptionsChange e =>
      negb (cellStatusBarVisibility e) && negb (editorTopPadding e)
      && negb (editorOptionsCustomizations e) && negb (cellBreakpointMargin e)
  | ModelChange => false
  | ViewModelOptionsChange listener =>
      negb (bool_decide (is_Some (_localDisposableStore a !! listener)))
  | SetLineNumbers _ => false
  | GetValue _ => true
  end.

(** A call that recomputes or patches whatever the adapter's state: a
    configuration change in one of the two sections, an options change
    with one of the four flags, and [setLineNumbers]. *)
Definition triggers (c : Call) : bool :=
  match c with
  | ConfigurationChange e =>
      affectsConfiguration e "editor" || affectsConfiguration e "notebook"
  | OptionsChange e =>
      cellStatusBarVisibility e || editorTopPadding e || editorOptionsCustomizations e
      || cellBreakpointMargin e
  | SetLineNumbers _ => true
  | ModelChange | ViewModelOptionsChange _ | GetValue _ => false
  end.

End WithMetadata.

Arguments Call : clear implicits.

End Subscriptions.

(* ===================================================================== *)
(** ** The registered setting and the effective line-number state *)
(* ===================================================================== *)

(** The property schema registered for [notebook.lineNumbers]. *)
Record ConfigurationPropertySchema : Type := {
  schema_type : string;
  schema_enum : list string;
  schema_default : string
}.

Definition notebook_lineNumbers_schema : ConfigurationPropertySchema :=
  {| schema_type := "string"; schema_enum := ["off"; "on"]; schema_default := "off" |}.

(** The test [currentLineNumberIsOn] of the per-cell toggle, for a cell. *)
Definition currentLineNumberIsOn {EditorPane : Type} (accessor : World EditorPane)
    (cell : ICellViewModel) : bool :=
  let configurationService := w_configurationService accessor in
  let renderLineNumbers :=
    strict_equals_str
      (IConfigurationService.getValue configurationService "notebook.lineNumbers") "on" in
  let cellLineNumbers := cell_lineNumbers accessor cell in
  strict_equals_str (mode_value cellLineNumbers) "on"
  || (strict_equals_str (mode_value cellLineNumbers) "inherit" && renderLineNumbers).

(** The table in the comment above that test: notebook-wide setting, cell
    mode, resulting state. *)
Definition documented_table : list (LineNumberMode * LineNumberMode * LineNumberMode) :=
  [ (on, inherit, on);
    (on, off, off);
    (on, on, on);
    (off, inherit, off);
    (off, off, off);
    (off, on, on) ].

(** The cached object exists and holds the padding (12, 12) and a boolean
    [readOnly]. *)
Definition cache_ok (this : CellEditorOptions.t) (h : gmap nat (gmap string value)) : Prop :=
  exists o, h !! CellEditorOptions._value this = Some o
            /\ o !! "padding" = Some (padding_value 12 12)
            /\ exists b, o !! "readOnly" = Some (VBool b).

(** More sample states: a customization of [editor.padding] and
    [editor.readOnly], an editor that claims a model it does not have, and
    a short life of an adapter. *)
Module Sample2.

Import CellEditorOptions.

Definition options_padding : NotebookOptions unit :=
  {| editorOptionsCustomizations :=
       Some {[ "editor.padding" := padding_value 0 0;
               "editor.readOnly" := VBool false;
               "editor.minimap" := VObj {[ "enabled" := VBool true ]} ]};
     computeEditorPadding := fun _ => padding_value 12 34 |}.

Definition calls : list (Services unit * Subscriptions.Call unit) :=
  [ (Sample.services Sample.cfg_on Sample.options_fontSize,
     Subscriptions.ConfigurationChange
       {| Subscriptions.affectsConfiguration := fun section => String.eqb section "notebook" |});
    (Sample.services Sample.cfg_on Sample.options_fontSize,
     Subscriptions.SetLineNumbers off);
    (Sample.services Sample.cfg_on options_padding,
     Subscriptions.ModelChange);
    (Sample.services Sample.cfg_on Sample.options_fontSize,
     Subscriptions.GetValue (Some tt));
    (Sample.services Sample.cfg_off Sample.options_fontSize,
     Subscriptions.ViewModelOptionsChange 0) ].

(** A customization under the key [editor.__proto__]. *)
Definition customizations_proto : gmap string value :=
  {[ "editor.__proto__" := VObj {[ "fontSize" := VNum 1 ]};
     "editor.fontSize" := VNum 20 ]}.

Definition loud_calls : list (Services unit * Subscriptions.Call unit) :=
  [ (Sample.services Sample.cfg_on Sample.options_fontSize,
     Subscriptions.SetLineNumbers on);
    (Sample.services Sample.cfg_on Sample.options_fontSize,
     Subscriptions.SetLineNumbers on);
    (Sample.services Sample.cfg_on Sample.options_fontSize,
     Subscriptions.OptionsChange
       {| Subscriptions.cellStatusBarVisibility := false;
          Subscriptions.editorTopPadding := true;
          Subscriptions.editorOptionsCustomizations := false;
          Subscriptions.cellBreakpointMargin := false |}) ].

Definition quiet_calls : list (Services unit * Subscriptions.Call unit) :=
  [ (Sample.services Sample.cfg_on Sample.options_fontSize,
     Subscriptions.ConfigurationChange
       {| Subscriptions.affectsConfiguration := fun section => String.eqb section "workbench" |});
    (Sample.services Sample.cfg_on Sample.options_fontSize,
     Subscriptions.GetValue None);
    (Sample.services Sample.cfg_on Sample.options_fontSize,
     Subscriptions.OptionsChange
       {| Subscriptions.cellStatusBarVisibility := false;
          Subscriptions.editorTopPadding := false;
          Subscriptions.editorOptionsCustomizations := false;
          Subscriptions.cellBreakpointMargin := false |}) ].

Definition instance : Subscriptions.instance :=
  {| Subscriptions.this := Sample.adapter.1;
     Subscriptions._localDisposableStore := [ {| options := {| isReadOnly := true |} |} ] |}.

End Sample2.

(* ===================================================================== *)
(** ** Strings: prefix test and prefix removal *)
(* ===================================================================== *)

Section Strings.

Lemma substring_prefix (p s : string) :
  substring 0 (String.length p) s = p <-> exists rest, s = p ++ rest.
Proof.
  revert s. induction p as [|a p IH]; intros s.
  - split; [intros _; by exists s | intros _; by destruct s].
  - destruct s as [|b s]; cbn [String.length substring].
    + split; [done | intros [rest Hrest]; discriminate Hrest].
    + split.
      * intros [= -> Hsub]. apply IH in Hsub as [rest ->]. by exists rest.
      * intros [rest [= -> ->]]. f_equal. apply IH. by exists rest.
Qed.

Lemma prefix_append (p s : string) :
  String.prefix p s = true <-> exists rest, s = p ++ rest.
Proof. rewrite prefix_correct. apply substring_prefix. Qed.

Lemma indexOf_zero (s pat : string) :
  pat <> "" -> indexOf s pat = 0%Z <-> String.prefix pat s = true.
Proof.
  intros Hpat. unfold indexOf. destruct s as [|b s]; cbn [index].
  - destruct pat; [done|]. split; discriminate.
  - destruct (String.prefix pat (String b s)) eqn:Hp; [done|].
    destruct (index 0 pat s); split; try discriminate; lia.
Qed.

Lemma substring_all (s : string) : substring 0 (String.length s) s = s.
Proof. induction s as [|a s IH]; simpl; [done | by rewrite IH]. Qed.

Lemma substr_append (p rest : string) :
  substr (p ++ rest) (String.length p) = rest.
Proof.
  unfold substr. induction p as [|a p IH]; simpl.
  - rewrite Nat.sub_0_r. apply substring_all.
  - exact IH.
Qed.

Lemma append_inj_r (p s1 s2 : string) : p ++ s1 = p ++ s2 -> s1 = s2.
Proof. induction p as [|a p IH]; simpl; [done | intros [=]; auto]. Qed.

End Strings.

(* ===================================================================== *)
(** ** Objects, the object store and the override loop *)
(* ===================================================================== *)

Section Store.

Implicit Types (o target source : gmap string value).
Implicit Types (h : gmap nat (gmap string value)).

Lemma lookup_spread target source k :
  spread target source !! k =
    match source !! k with Some v => Some v | None => target !! k end.
Proof.
  unfold spread. rewrite lookup_union.
  by destruct (source !! k), (target !! k).
Qed.

Lemma spread_empty source : spread ∅ source = source.
Proof. unfold spread. apply (right_id_L ∅ (∪)). Qed.

Lemma alloc_fresh h o : h !! (alloc h o).1 = None.
Proof. apply not_elem_of_dom, is_fresh. Qed.

Lemma alloc_lookup h o : (alloc h o).2 !! (alloc h o).1 = Some o.
Proof. apply lookup_insert_eq. Qed.

Lemma alloc_lookup_ne h o l : l ≠ (alloc h o).1 -> (alloc h o).2 !! l = h !! l.
Proof. intros Hl. by apply lookup_insert_ne. Qed.

Lemma alloc_lookup_old h o l o' : h !! l = Some o' -> (alloc h o).2 !! l = Some o'.
Proof.
  intros Hl. rewrite alloc_lookup_ne; [done|].
  intros ->. by rewrite alloc_fresh in Hl.
Qed.

Lemma set_prop_lookup h l k v :
  set_prop h l k v !! l = (fun o => <[k := v]> o) <$> h !! l.
Proof. apply lookup_alter_eq. Qed.

Lemma set_prop_lookup_ne h l l' k v : l ≠ l' -> set_prop h l k v !! l' = h !! l'.
Proof. intros Hl. by apply lookup_alter_ne. Qed.

Lemma set_prop_dom h l k v : dom (set_prop h l k v) = dom h.
Proof. apply dom_alter_L. Qed.

End Store.

Section OverrideLoop.

Import CellEditorOptions.

Lemma assign_lookup (o : gmap string value) (k k' : string) (v : value) :
  assign o k v !! k'
  = if decide (k = k' /\ k ≠ "__proto__") then Some v else o !! k'.
Proof.
  unfold assign. destruct (String.eqb_spec k "__proto__") as [->|Hproto].
  - destruct (decide _) as [[_ Hk]|_]; done.
  - rewrite lookup_insert.
    destruct (decide (k = k')) as [->|Hne];
      destruct (decide (_ /\ _)) as [[Heq Hk]|Hn]; try done.
    exfalso. apply Hn. by split.
Qed.

Lemma override_step_lookup key v acc k :
  override_step key v acc !! k =
    if decide (key = "editor." ++ k /\ k ≠ "__proto__") then Some v else acc !! k.
Proof.
  unfold override_step.
  destruct (indexOf key "editor." =? 0)%Z eqn:Hidx.
  - apply Z.eqb_eq, indexOf_zero, prefix_append in Hidx as [rest ->]; [|done].
    change 7 with (String.length "editor."). rewrite substr_append.
    rewrite assign_lookup.
    destruct (decide (rest = k /\ rest ≠ "__proto__")) as [[-> Hproto]|Hrest];
      destruct (decide (_ /\ k ≠ "__proto__")) as [[Hkey Hproto']|Hkey]; try done.
    + exfalso. apply Hkey. by split.
    + apply append_inj_r in Hkey. subst rest. exfalso. apply Hrest. by split.
  - destruct (decide _) as [[-> _]|_]; [|done].
    apply Z.eqb_neq in Hidx. exfalso. apply Hidx.
    apply indexOf_zero; [done|]. apply prefix_append. by exists k.
Qed.

(** The loop keeps the entries under the prefix, the prefix removed,
    except the one whose suffix is ["__proto__"]. *)
Lemma override_lookup (customizations : option (gmap string value)) (k : string) :
  editorOptionsOverride_of customizations !! k
  = if decide (k = "__proto__") then None
    else default ∅ customizations !! ("editor." ++ k).
Proof.
  unfold editorOptionsOverride_of. cbv zeta.
  generalize (default (∅ : gmap string value) customizations). intros raw.
  revert k.
  apply (map_fold_weak_ind
           (fun acc (m : gmap string value) =>
              forall k, acc !! k = if decide (k = "__proto__") then None
                                   else m !! ("editor." ++ k))).
  - intros k. rewrite !lookup_empty. by case_decide.
  - intros key v m acc Hfresh IH k.
    rewrite override_step_lookup, IH.
    destruct (decide (k = "__proto__")) as [->|Hproto].
    + destruct (decide _) as [[_ Hk]|_]; done.
    + destruct (decide (_ /\ _)) as [[-> _]|Hk].
      * by rewrite lookup_insert_eq.
      * rewrite lookup_insert_ne; [done|]. intros ->. apply Hk. by split.
Qed.

(** Away from that key the loop is the prefix filter. *)
Lemma override_lookup_ne (customizations : option (gmap string value)) (k : string) :
  k ≠ "__proto__" ->
  editorOptionsOverride_of customizations !! k
  = default ∅ customizations !! ("editor." ++ k).
Proof. intros Hk. rewrite override_lookup. by case_decide. Qed.

End OverrideLoop.

(* ===================================================================== *)
(** ** Recomputation *)
(* ===================================================================== *)

Section Recomputation.

Import CellEditorOptions.
Context {M : Type}.
Implicit Types (s : Services M) (this : t) (h : gmap nat (gmap string value)).

(** The object that [_computeEditorOptions] returns is new and holds
    the literal [computed]; the objects of the store stay as they are. *)
Lemma _computeEditorOptions_fresh s language h :
  h !! (_computeEditorOptions s language h).1 = None.
Proof. apply alloc_fresh. Qed.

Lemma _computeEditorOptions_lookup s language h :
  (_computeEditorOptions s language h).2 !! (_computeEditorOptions s language h).1
  = Some (computed s language).
Proof. apply alloc_lookup. Qed.

Lemma _computeEditorOptions_old s language h l o :
  h !! l = Some o -> (_computeEditorOptions s language h).2 !! l = Some o.
Proof. apply alloc_lookup_old. Qed.

Lemma _recomputeOptions_value s this h :
  (_recomputeOptions s this h).2 !! _value (_recomputeOptions s this h).1
  = Some (computed s (language this)).
Proof.
  unfold _recomputeOptions.
  pose proof (_computeEditorOptions_lookup s (language this) h) as Hnew.
  by destruct (_computeEditorOptions s (language this) h).
Qed.

Lemma constructor_value s language h :
  (constructor s language h).2 !! _value (constructor s language h).1
  = Some (computed s language).
Proof.
  unfold constructor.
  pose proof (_computeEditorOptions_lookup s language h) as Hnew.
  by destruct (_computeEditorOptions s language h).
Qed.

(** The value of every key of the literal, layer by layer from the last. *)
Lemma computed_lookup s language k :
  computed s language !! k = later_wins (stated_layers s language) k.
Proof.
  unfold computed, stated_layers, deepClone. cbv zeta.
  cbn [later_wins].
  rewrite lookup_insert. case_decide as Hk.
  - subst k. rewrite lookup_singleton_eq.
    by destruct (viewModel (notebookEditor s)).
  - rewrite lookup_singleton_ne by done.
    rewrite !lookup_spread, lookup_empty.
    repeat match goal with |- context [match ?x !! k with _ => _ end] =>
             destruct (x !! k) end; done.
Qed.

End Recomputation.

(* ===================================================================== *)
(** ** setLineNumbers and getValue *)
(* ===================================================================== *)

Section Accessors.

Import CellEditorOptions.
Context {M : Type}.
Implicit Types (s : Services M) (this : t) (h : gmap nat (gmap string value)).

(** Both branches of [setLineNumbers] write the same two properties;
    they differ in the value written as [lineNumbers]. *)
Lemma setLineNumbers_unfold s this mode h :
  setLineNumbers s this mode h =
    let lineNumbers := stated_lineNumbers (configurationService s) mode in
    ({| _value := _value this; _lineNumbers := mode;
        _onDidChange := S (_onDidChange this); language := language this |},
     set_prop (set_prop h (_value this) "lineNumbers" lineNumbers)
       (_value this) "folding" (VBool (strict_equals_str lineNumbers "on"))).
Proof. by destruct mode. Qed.

Lemma set_prop_twice_lookup h l o k1 v1 k2 v2 :
  h !! l = Some o ->
  set_prop (set_prop h l k1 v1) l k2 v2 !! l = Some (<[k2 := v2]> (<[k1 := v1]> o)).
Proof. intros Ho. by rewrite !set_prop_lookup, Ho. Qed.

Lemma stated_lineNumbers_on_off cfg mode :
  stated_lineNumbers cfg mode = VStr "on" \/ stated_lineNumbers cfg mode = VStr "off".
Proof.
  destruct mode; cbn; auto.
  destruct (strict_equals_str _ "on"); auto.
Qed.

Lemma setLineNumbers_value s this mode h o :
  h !! _value this = Some o ->
  (setLineNumbers s this mode h).2 !! _value (setLineNumbers s this mode h).1
  = Some (<["folding" :=
              VBool (strict_equals_str
                       (stated_lineNumbers (configurationService s) mode) "on")]>
            (<["lineNumbers" := stated_lineNumbers (configurationService s) mode]> o)).
Proof.
  intros Ho. rewrite setLineNumbers_unfold. cbv zeta. cbn [fst snd _value].
  by apply set_prop_twice_lookup.
Qed.

End Accessors.

(** With the notebook-wide setting ['off'] and the layout customization
    [editor.fontSize = 20], recomputation gives [fontSize === 20] and
    [lineNumbers === 'off']; the customization key outside the prefix is
    dropped and the fixed options win over the editor section. *)
Example recomputation_with_fontSize_customization :
  let o := CellEditorOptions.computed
             (Sample.services Sample.cfg_off Sample.options_fontSize) "python" in
  o !! "fontSize" = Some (VNum 20)
  /\ o !! "lineNumbers" = Some (VStr "off")
  /\ o !! "folding" = Some (VBool false)
  /\ o !! "minimap" = Some (VObj {[ "enabled" := VBool false ]})
  /\ o !! "readOnly" = Some (VBool true)
  /\ o !! "notebook.cellToolbar" = None
  /\ o !! "cellToolbar" = None.
Proof. vm_compute. done. Qed.

Import CellEditorOptions.

(** C8, on the code: the loop of the recomputation keeps, under every key
    [k] other than ["__proto__"], exactly what the customizations hold
    under ["editor." ++ k], and an absent mapping gives the empty
    override; but the entry of the key [editor.__proto__] is lost, since
    the assignment [editorOptionsOverride['__proto__'] = v] adds no
    property.  With the customizations
    [{ "editor.__proto__": { fontSize: 1 }, "editor.fontSize": 20 }] the
    override mapping has [fontSize] and has no [__proto__]. *)
Theorem override_mapping_drops_proto_key (customizations : option (gmap string value)) :
  (forall k, editorOptionsOverride_of customizations !! k
             = if decide (k = "__proto__") then None
               else default ∅ customizations !! ("editor." ++ k))
  /\ editorOptionsOverride_of None = ∅
  /\ (Sample2.customizations_proto !! "editor.__proto__"
        = Some (VObj {[ "fontSize" := VNum 1 ]})
      /\ indexOf "editor.__proto__" "editor." = 0%Z
      /\ substr "editor.__proto__" 7 = "__proto__"
      /\ editorOptionsOverride_of (Some Sample2.customizations_proto) !! "__proto__" = None
      /\ editorOptionsOverride_of (Some Sample2.customizations_proto) !! "fontSize"
         = Some (VNum 20)).
Proof.
  split; [apply override_lookup|]. split.
  - apply map_eq. intros k. rewrite override_lookup, !lookup_empty. by case_decide.
  - vm_compute. done.
Qed.

(** C2: the object that recomputation builds and caches is a new object,
    the merge of six layers in this order, later ones winning on a key conflict: the
    language-scoped editor options, the fixed options, the derived pair
    of [lineNumbers] and [folding], the override mapping, the padding
    (12, 12), and [readOnly] (false without a view model). *)
Theorem recomputation_merges_six_layers {M : Type} (s : Services M) (this : t)
    (h : gmap nat (gmap string value)) :
  length (stated_layers s (language this)) = 6
  /\ h !! (_computeEditorOptions s (language this) h).1 = None
  /\ exists o,
       (_computeEditorOptions s (language this) h).2
         !! (_computeEditorOptions s (language this) h).1 = Some o
       /\ (_recomputeOptions s this h).2 !! _value (_recomputeOptions s this h).1 = Some o
       /\ forall k, o !! k = later_wins (stated_layers s (language this)) k.
Proof.
  split; [reflexivity|]. split; [apply _computeEditorOptions_fresh|].
  exists (computed s (language this)).
  split; [apply _computeEditorOptions_lookup|].
  split; [apply _recomputeOptions_value|].
  apply computed_lookup.
Qed.

(** C1, as the code has it: after every [setLineNumbers] call the cached
    options satisfy [folding === (lineNumbers === 'on')]; after a
    recomputation (and after construction) they do whenever the layout
    customizations have neither the key [editor.lineNumbers] nor the key
    [editor.folding]. *)
Theorem folding_follows_lineNumbers_after {M : Type} (s : Services M) (this : t)
    (h : gmap nat (gmap string value)) :
  (forall mode o,
      h !! _value this = Some o ->
      cached_satisfies folding_follows_lineNumbers (setLineNumbers s this mode h))
  /\ (default ∅ (editorOptionsCustomizations (notebookOptions s)) !! "editor.lineNumbers"
        = None ->
      default ∅ (editorOptionsCustomizations (notebookOptions s)) !! "editor.folding"
        = None ->
      cached_satisfies folding_follows_lineNumbers (_recomputeOptions s this h)
      /\ forall language,
           cached_satisfies folding_follows_lineNumbers (constructor s language h)).
Proof.
  split.
  - intros mode o Ho. eexists. split; [by apply setLineNumbers_value|].
    unfold folding_follows_lineNumbers, prop.
    rewrite lookup_insert_eq, lookup_insert_ne, lookup_insert_eq by done.
    cbn [from_option id].
    by destruct (stated_lineNumbers_on_off (configurationService s) mode) as [-> | ->].
  - intros Hln Hfold.
    assert (forall language, folding_follows_lineNumbers (computed s language) = true) as Hinv.
    { intros language. unfold folding_follows_lineNumbers, prop.
      rewrite !computed_lookup. unfold stated_layers. cbv zeta. cbn [later_wins].
      rewrite !lookup_singleton_ne by done.
      rewrite !override_lookup_ne by done.
      change ("editor." ++ "lineNumbers") with "editor.lineNumbers".
      change ("editor." ++ "folding") with "editor.folding".
      rewrite Hln, Hfold.
      rewrite lookup_insert_eq, lookup_insert_ne, lookup_singleton_eq by done.
      cbn. by destruct (strict_equals_str _ "on"). }
    split; [|intros language]; eexists; split;
      [apply _recomputeOptions_value | apply Hinv
      | apply constructor_value | apply Hinv].
Qed.

Lemma folding_follows_lineNumbers_after_witness :
  cached_satisfies folding_follows_lineNumbers
    (setLineNumbers (Sample.services Sample.cfg_off Sample.options_fontSize)
       Sample.adapter.1 inherit Sample.adapter.2)
  /\ cached_satisfies folding_follows_lineNumbers
       (_recomputeOptions (Sample.services Sample.cfg_off Sample.options_fontSize)
          Sample.adapter.1 Sample.adapter.2).
Proof.
  destruct (folding_follows_lineNumbers_after
              (Sample.services Sample.cfg_off Sample.options_fontSize)
              Sample.adapter.1 Sample.adapter.2) as [Hset Hrecompute].
  split.
  - eapply Hset. apply constructor_value.
  - apply Hrecompute; vm_compute; reflexivity.
Defined.

(** C1 as stated fails: with the notebook-wide setting ['off'] and the
    layout customization [editor.folding = true], recomputation caches
    [lineNumbers = 'off'] together with [folding = true]. *)
Lemma recomputation_breaks_folding_invariant :
  let r := _recomputeOptions (Sample.services Sample.cfg_off Sample.options_folding)
             Sample.adapter.1 Sample.adapter.2 in
  exists o, r.2 !! _value r.1 = Some o
            /\ prop o "lineNumbers" = VStr "off"
            /\ prop o "folding" = VBool true
            /\ folding_follows_lineNumbers o = false.
Proof.
  cbv zeta. eexists. split; [apply _recomputeOptions_value|].
  vm_compute. done.
Qed.

(** C4: [setLineNumbers(mode)] stores the mode, writes [lineNumbers] and
    [folding] into the cached object (from the notebook-wide setting when
    the mode is ['inherit'], from the mode itself otherwise) and fires one
    change notification whatever the cached object was; [setLineNumbers('on')]
    followed by [setLineNumbers('inherit')] under the notebook-wide setting
    ['off'] leaves [lineNumbers === 'off']. *)
Theorem setLineNumbers_writes_and_fires {M : Type} (s : Services M) (this : t)
    (mode : LineNumberMode) (h : gmap nat (gmap string value)) (o : gmap string value) :
  h !! _value this = Some o ->
  let r := setLineNumbers s this mode h in
  let lineNumbers := stated_lineNumbers (configurationService s) mode in
  _lineNumbers r.1 = mode
  /\ _onDidChange r.1 = S (_onDidChange this)
  /\ r.2 !! _value r.1
     = Some (<["folding" := VBool (strict_equals_str lineNumbers "on")]>
               (<["lineNumbers" := lineNumbers]> o))
  /\ forall s2 : Services M,
       IConfigurationService.getValue (configurationService s2) "notebook.lineNumbers"
         = VStr "off" ->
       let r1 := setLineNumbers s this on h in
       let r2 := setLineNumbers s2 r1.1 inherit r1.2 in
       _onDidChange r2.1 = S (S (_onDidChange this))
       /\ exists o2, r2.2 !! _value r2.1 = Some o2
                     /\ strict_equals_str (prop o2 "lineNumbers") "off" = true.
Proof.
  intros Ho. cbv zeta.
  split; [by rewrite setLineNumbers_unfold|].
  split; [by rewrite setLineNumbers_unfold|].
  split; [by apply setLineNumbers_value|].
  intros s2 Hoff. split; [by rewrite !setLineNumbers_unfold|].
  eexists. split.
  - eapply setLineNumbers_value. rewrite setLineNumbers_unfold. cbv zeta.
    cbn [fst snd _value]. by apply set_prop_twice_lookup.
  - unfold prop. rewrite lookup_insert_ne, lookup_insert_eq by done.
    cbn [stated_lineNumbers from_option id]. by rewrite Hoff.
Qed.

Lemma setLineNumbers_writes_and_fires_witness :
  let r := setLineNumbers (Sample.services Sample.cfg_on Sample.options_fontSize)
             Sample.adapter.1 inherit Sample.adapter.2 in
  _lineNumbers r.1 = inherit /\ _onDidChange r.1 = 1.
Proof.
  destruct (setLineNumbers_writes_and_fires
              (Sample.services Sample.cfg_on Sample.options_fontSize)
              Sample.adapter.1 inherit Sample.adapter.2 _
              (constructor_value _ _ _)) as (Hmode & Hfired & _).
  split; [exact Hmode | exact Hfired].
Defined.

(** C9: [setLineNumbers] patches the cached object in place: the adapter
    keeps naming the same object, no object is added to or removed from
    the store, every other object is untouched, and in the cached object
    every property other than [lineNumbers] and [folding] is unchanged. *)
Theorem setLineNumbers_frame {M : Type} (s : Services M) (this : t)
    (mode : LineNumberMode) (h : gmap nat (gmap string value)) (o : gmap string value) :
  h !! _value this = Some o ->
  let r := setLineNumbers s this mode h in
  _value r.1 = _value this
  /\ language r.1 = language this
  /\ dom r.2 = dom h
  /\ (forall l, l ≠ _value this -> r.2 !! l = h !! l)
  /\ exists o', r.2 !! _value this = Some o'
                /\ forall k, k ≠ "lineNumbers" -> k ≠ "folding" -> o' !! k = o !! k.
Proof.
  intros Ho. cbv zeta. rewrite setLineNumbers_unfold. cbv zeta. cbn [fst snd _value language].
  split; [done|]. split; [done|].
  split; [by rewrite !set_prop_dom|].
  split; [intros l Hl; by rewrite !set_prop_lookup_ne|].
  eexists. split; [by apply set_prop_twice_lookup|].
  intros k Hln Hfold. by rewrite !lookup_insert_ne.
Qed.

Lemma setLineNumbers_frame_witness :
  let r := setLineNumbers (Sample.services Sample.cfg_off Sample.options_fontSize)
             Sample.adapter.1 on Sample.adapter.2 in
  _value r.1 = _value Sample.adapter.1 /\ dom r.2 = dom Sample.adapter.2.
Proof.
  destruct (setLineNumbers_frame
              (Sample.services Sample.cfg_off Sample.options_fontSize)
              Sample.adapter.1 on Sample.adapter.2 _
              (constructor_value _ _ _)) as (Hvalue & _ & Hdom & _).
  split; [exact Hvalue | exact Hdom].
Defined.

(** C5: [getValue] returns a new object that holds the cached object's
    properties with [padding] replaced, by (12, 12) without metadata and by
    the result of the notebook options' padding callback with metadata;
    every other key reads as in the cached object, and the cached object
    and every other object of the store are as before the read. *)
Theorem getValue_overrides_padding_only {M : Type} (s : Services M) (this : t)
    (internalMetadata : option M) (h : gmap nat (gmap string value))
    (o : gmap string value) :
  h !! _value this = Some o ->
  let r := getValue s this internalMetadata h in
  h !! r.1 = None
  /\ (exists o', r.2 !! r.1 = Some o'
                 /\ o' !! "padding"
                    = Some (match internalMetadata with
                            | Some m => computeEditorPadding (notebookOptions s) m
                            | None => padding_value 12 12
                            end)
                 /\ forall k, k ≠ "padding" -> o' !! k = o !! k)
  /\ r.2 !! _value this = Some o
  /\ forall l, l ≠ r.1 -> r.2 !! l = h !! l.
Proof.
  intros Ho. cbv zeta. unfold getValue. rewrite Ho. cbn [from_option id].
  split; [apply alloc_fresh|]. split.
  - eexists. split; [apply alloc_lookup|]. split.
    + by rewrite lookup_spread, lookup_singleton_eq.
    + intros k Hk. rewrite lookup_spread, lookup_singleton_ne by done.
      by rewrite spread_empty.
  - split; [by apply alloc_lookup_old|]. intros l Hl. by apply alloc_lookup_ne.
Qed.

Lemma getValue_overrides_padding_only_witness :
  let r := getValue (Sample.services Sample.cfg_off Sample.options_fontSize)
             Sample.adapter.1 (Some tt) Sample.adapter.2 in
  Sample.adapter.2 !! r.1 = None
  /\ exists o', r.2 !! r.1 = Some o' /\ o' !! "padding" = Some (padding_value 12 34).
Proof.
  destruct (getValue_overrides_padding_only
              (Sample.services Sample.cfg_off Sample.options_fontSize)
              Sample.adapter.1 (Some tt) Sample.adapter.2 _
              (constructor_value _ _ _)) as (Hnew & (o' & Ho' & Hpadding & _) & _).
  split; [exact Hnew|]. exists o'. split; [exact Ho' | exact Hpadding].
Defined.

(* ===================================================================== *)
(** ** The toggle actions *)
(* ===================================================================== *)

Section Toggle.

Context {P : Type}.
Implicit Types (w : World P).

Lemma strict_equals_str_ne (v : value) (lit : string) :
  v ≠ VStr lit -> strict_equals_str v lit = false.
Proof.
  intros Hv. destruct v; try done. cbn.
  apply String.eqb_neq. congruence.
Qed.

(** What the closing [if (cell)] statement does to a cell. *)
Lemma toggle_cell w c :
  cell_lineNumbers (ToggleActiveLineNumberAction.toggle w (Some c)) c
  = stated_new_mode (cell_lineNumbers w c)
      (strict_equals_str
         (IConfigurationService.getValue (w_configurationService w)
            "notebook.lineNumbers") "on").
Proof.
  unfold ToggleActiveLineNumberAction.toggle. cbv zeta.
  destruct (cell_lineNumbers w c),
    (strict_equals_str (IConfigurationService.getValue _ _) "on"); cbn;
    apply fn_lookup_insert.
Qed.

Lemma toggle_other_cells w c c' :
  c' ≠ c ->
  cell_lineNumbers (ToggleActiveLineNumberAction.toggle w (Some c)) c'
  = cell_lineNumbers w c'.
Proof.
  intros Hc. unfold ToggleActiveLineNumberAction.toggle. cbv zeta.
  destruct (_ || _); cbn; by apply fn_lookup_insert_ne.
Qed.

Lemma toggle_services w cell :
  w_configurationService (ToggleActiveLineNumberAction.toggle w cell)
    = w_configurationService w
  /\ activeEditorPane (ToggleActiveLineNumberAction.toggle w cell) = activeEditorPane w.
Proof.
  unfold ToggleActiveLineNumberAction.toggle.
  destruct cell; [|done]. cbv zeta. by destruct (_ || _).
Qed.

End Toggle.

(** C3: once the per-cell toggle has its cell, from the invocation
    context or else the active cell of the active notebook editor, it sets
    that cell's mode to ['off'] when the mode is ['on'], or is ['inherit']
    while the notebook-wide flag is true, and to ['on'] otherwise; it never
    writes ['inherit'], and it changes nothing else. *)
Theorem per_cell_toggle_truth_table {P : Type}
    (getNotebookEditorFromEditorPane : option P -> option INotebookEditor)
    (w : World P) (context : option ToggleActiveLineNumberAction.CellContext)
    (c : nat) :
  context ≫= ToggleActiveLineNumberAction.cell = Some c
  \/ (context ≫= ToggleActiveLineNumberAction.cell = None
      /\ exists editor,
           getNotebookEditorFromEditorPane (activeEditorPane w) = Some editor
           /\ hasModel editor = true /\ getActiveCell editor = Some c) ->
  let cellLineNumbers := cell_lineNumbers w c in
  let renderLineNumbers :=
    strict_equals_str
      (IConfigurationService.getValue (w_configurationService w) "notebook.lineNumbers")
      "on" in
  exists w',
    ToggleActiveLineNumberAction.run getNotebookEditorFromEditorPane w context = Normal w'
    /\ cell_lineNumbers w' c
       = (if bool_decide (cellLineNumbers = on)
             || (bool_decide (cellLineNumbers = inherit) && renderLineNumbers)
          then off else on)
    /\ cell_lineNumbers w' c = stated_new_mode cellLineNumbers renderLineNumbers
    /\ cell_lineNumbers w' c ≠ inherit
    /\ (forall c', c' ≠ c -> cell_lineNumbers w' c' = cell_lineNumbers w c')
    /\ w_configurationService w' = w_configurationService w
    /\ activeEditorPane w' = activeEditorPane w.
Proof.
  intros Hcell. cbv zeta.
  exists (ToggleActiveLineNumberAction.toggle w (Some c)).
  split.
  - unfold ToggleActiveLineNumberAction.run. cbv zeta.
    destruct Hcell as [-> | (-> & editor & -> & Hmodel & Hactive)]; [done|].
    cbn. rewrite Hmodel. cbn. by rewrite Hactive.
  - rewrite toggle_cell.
    split; [by destruct (cell_lineNumbers w c), (strict_equals_str _ "on")|].
    split; [done|].
    split; [by destruct (cell_lineNumbers w c), (strict_equals_str _ "on")|].
    split; [intros c' Hc'; by apply toggle_other_cells|].
    apply toggle_services.
Qed.

Lemma per_cell_toggle_truth_table_witness :
  exists w',
    ToggleActiveLineNumberAction.run Sample.some_editor
      (Sample.world Sample.cfg_on (Some tt)) None = Normal w'
    /\ cell_lineNumbers w' 2 = off.
Proof.
  destruct (per_cell_toggle_truth_table Sample.some_editor
              (Sample.world Sample.cfg_on (Some tt)) None 2) as (w' & Hrun & Hmode & _).
  - right. split; [reflexivity|].
    exists Sample.editor_with_model. repeat split; reflexivity.
  - exists w'. split; [exact Hrun | exact Hmode].
Defined.

(** C6: invoked with no cell in the invocation context and with no
    notebook editor behind the active pane, or one without a model, or one
    without an active cell, the per-cell toggle completes normally and
    leaves every cell's mode and the configuration as they were. *)
Theorem per_cell_toggle_without_target {P : Type}
    (getNotebookEditorFromEditorPane : option P -> option INotebookEditor)
    (w : World P) (context : option ToggleActiveLineNumberAction.CellContext) :
  context ≫= ToggleActiveLineNumberAction.cell = None ->
  getNotebookEditorFromEditorPane (activeEditorPane w) = None
  \/ (exists editor,
        getNotebookEditorFromEditorPane (activeEditorPane w) = Some editor
        /\ (hasModel editor = false \/ getActiveCell editor = None)) ->
  ToggleActiveLineNumberAction.run getNotebookEditorFromEditorPane w context = Normal w.
Proof.
  intros Hcell Hnone. unfold ToggleActiveLineNumberAction.run. cbv zeta.
  rewrite Hcell. cbn [truthy negb].
  destruct Hnone as [-> | (editor & -> & Hnone)]; [done|]. cbn.
  destruct (hasModel editor) eqn:Hmodel; cbn; [|done].
  destruct Hnone as [? | ->]; done.
Qed.

Lemma per_cell_toggle_without_target_witness :
  ToggleActiveLineNumberAction.run Sample.no_editor
    (Sample.world Sample.cfg_on None) None
  = Normal (Sample.world Sample.cfg_on None).
Proof.
  apply (per_cell_toggle_without_target Sample.no_editor
           (Sample.world Sample.cfg_on None) None).
  - reflexivity.
  - left. reflexivity.
Defined.

(** C7: the notebook-wide toggle stores ['off'] under [notebook.lineNumbers]
    when the setting reads ['on'] and ['on'] otherwise; every other stored
    setting, the editor section, the active pane and every cell's mode are
    unchanged. *)
Theorem notebook_toggle_flips_setting {P : Type} (w : World P) :
  let w' := ToggleLineNumberAction.run w in
  let cfg := w_configurationService w in
  let cfg' := w_configurationService w' in
  IConfigurationService.settings cfg' !! "notebook.lineNumbers"
    = Some (if strict_equals_str
                 (IConfigurationService.getValue cfg "notebook.lineNumbers") "on"
            then VStr "off" else VStr "on")
  /\ (forall key, key ≠ "notebook.lineNumbers" ->
        IConfigurationService.settings cfg' !! key
        = IConfigurationService.settings cfg !! key)
  /\ IConfigurationService.editorSection cfg' = IConfigurationService.editorSection cfg
  /\ activeEditorPane w' = activeEditorPane w
  /\ cell_lineNumbers w' = cell_lineNumbers w.
Proof.
  cbv zeta. unfold ToggleLineNumberAction.run. cbv zeta.
  destruct (strict_equals_str _ "on"); cbn;
    (split; [apply lookup_insert_eq|]);
    (split; [intros key Hkey; by apply lookup_insert_ne|]); done.
Qed.

(** C10: a notebook-wide setting that is not exactly the string ['on']
    (absent, or any other value) is read as ['off'] at each of its four
    reads: recomputation, [setLineNumbers('inherit')], the notebook-wide
    toggle and the per-cell toggle each give what they give when the
    setting is stored as ['off']. *)
Theorem lineNumbers_setting_read_as_off {M P : Type} (cfg : IConfigurationService.t) :
  IConfigurationService.getValue cfg "notebook.lineNumbers" ≠ VStr "on" ->
  (forall (o : NotebookOptions M) editor language,
      computed {| configurationService := cfg; notebookOptions := o;
                  notebookEditor := editor |} language
      = computed {| configurationService := with_lineNumbers_off cfg;
                    notebookOptions := o; notebookEditor := editor |} language)
  /\ (forall (o : NotebookOptions M) editor this h,
        setLineNumbers {| configurationService := cfg; notebookOptions := o;
                          notebookEditor := editor |} this inherit h
        = setLineNumbers {| configurationService := with_lineNumbers_off cfg;
                            notebookOptions := o; notebookEditor := editor |}
            this inherit h)
  /\ (forall (pane : option P) cells,
        ToggleLineNumberAction.run
          {| w_configurationService := cfg; activeEditorPane := pane;
             cell_lineNumbers := cells |}
        = ToggleLineNumberAction.run
            {| w_configurationService := with_lineNumbers_off cfg;
               activeEditorPane := pane; cell_lineNumbers := cells |})
  /\ (forall getNotebookEditorFromEditorPane (pane : option P) cells context,
        cell_lineNumbers <$>
          ToggleActiveLineNumberAction.run getNotebookEditorFromEditorPane
            {| w_configurationService := cfg; activeEditorPane := pane;
               cell_lineNumbers := cells |} context
        = cell_lineNumbers <$>
            ToggleActiveLineNumberAction.run getNotebookEditorFromEditorPane
              {| w_configurationService := with_lineNumbers_off cfg;
                 activeEditorPane := pane; cell_lineNumbers := cells |} context).
Proof.
  intros Hcfg. apply (strict_equals_str_ne _ "on") in Hcfg.
  assert (strict_equals_str
            (IConfigurationService.getValue (with_lineNumbers_off cfg)
               "notebook.lineNumbers") "on" = false) as Hoff.
  { unfold with_lineNumbers_off, IConfigurationService.getValue. cbn.
    by rewrite lookup_insert_eq. }
  split; [|split; [|split]].
  - intros o editor language. unfold computed. cbv zeta. cbn.
    by rewrite Hcfg, Hoff.
  - intros o editor this h. rewrite !setLineNumbers_unfold. cbv zeta. cbn.
    by rewrite Hcfg, Hoff.
  - intros pane cells. unfold ToggleLineNumberAction.run. cbv zeta.
    cbn [w_configurationService]. rewrite Hcfg, Hoff.
    unfold with_lineNumbers_off, IConfigurationService.updateValue. cbn.
    by rewrite insert_insert_eq.
  - intros get pane cells context.
    unfold ToggleActiveLineNumberAction.run. cbv zeta.
    assert (forall cell,
               cell_lineNumbers
                 (ToggleActiveLineNumberAction.toggle
                    {| w_configurationService := cfg; activeEditorPane := pane;
                       cell_lineNumbers := cells |} cell)
               = cell_lineNumbers
                   (ToggleActiveLineNumberAction.toggle
                      {| w_configurationService := with_lineNumbers_off cfg;
                         activeEditorPane := pane; cell_lineNumbers := cells |} cell))
      as Htoggle.
    { intros [c|]; [|done]. unfold ToggleActiveLineNumberAction.toggle. cbv zeta.
      cbn [w_configurationService cell_lineNumbers activeEditorPane].
      rewrite Hcfg, Hoff. by destruct (_ || _). }
    destruct (context ≫= ToggleActiveLineNumberAction.cell) as [c|];
      cbn -[ToggleActiveLineNumberAction.toggle].
    + by rewrite Htoggle.
    + destruct (get pane) as [editor|];
        cbn -[ToggleActiveLineNumberAction.toggle]; [|done].
      destruct (hasModel editor);
        cbn -[ToggleActiveLineNumberAction.toggle]; [|done].
      by rewrite Htoggle.
Qed.

Lemma lineNumbers_setting_read_as_off_witness :
  computed (Sample.services Sample.cfg_invalid Sample.options_fontSize) "python"
  = computed (Sample.services (with_lineNumbers_off Sample.cfg_invalid)
                Sample.options_fontSize) "python"
  /\ ToggleLineNumberAction.run (Sample.world Sample.cfg_absent (Some tt))
     = ToggleLineNumberAction.run
         (Sample.world (with_lineNumbers_off Sample.cfg_absent) (Some tt)).
Proof.
  split.
  - refine (proj1 (lineNumbers_setting_read_as_off (M := unit) (P := unit)
                     Sample.cfg_invalid _) _ _ _).
    vm_compute. discriminate.
  - refine (proj1 (proj2 (proj2 (lineNumbers_setting_read_as_off (M := unit) (P := unit)
                                   Sample.cfg_absent _))) _ _).
    vm_compute. discriminate.
Defined.

(* ===================================================================== *)
(** ** The layers of the cached options, key by key *)
(* ===================================================================== *)

Section Layers.

Context {M : Type}.
Implicit Types (s : Services M) (this : t) (h : gmap nat (gmap string value)).

Lemma computed_padding s language :
  computed s language !! "padding" = Some (padding_value 12 12).
Proof.
  rewrite computed_lookup. unfold stated_layers. cbv zeta. cbn [later_wins].
  by rewrite lookup_singleton_ne, lookup_singleton_eq.
Qed.

Lemma computed_readOnly s language :
  computed s language !! "readOnly"
  = Some (VBool (match viewModel (notebookEditor s) with
                 | Some vm => isReadOnly (options vm)
                 | None => false
                 end)).
Proof.
  rewrite computed_lookup. unfold stated_layers. cbv zeta. cbn [later_wins].
  by rewrite lookup_singleton_eq.
Qed.

(** Below the last two layers, a key reads from the override, else from
    the derived pair, else from the fixed options, else from the editor
    section. *)
Lemma computed_lookup_lower s language k :
  k ≠ "padding" -> k ≠ "readOnly" ->
  computed s language !! k
  = match editorOptionsOverride_of (editorOptionsCustomizations (notebookOptions s)) !! k with
    | Some v => Some v
    | None =>
        match later_wins (take 3 (stated_layers s language)) k with
        | Some v => Some v
        | None => None
        end
    end.
Proof.
  intros Hpadding HreadOnly. rewrite computed_lookup.
  unfold stated_layers. cbv zeta. cbn [later_wins take].
  rewrite !lookup_singleton_ne by done.
  destruct (editorOptionsOverride_of _ !! k); [done|].
  repeat match goal with |- context [match ?x !! k with _ => _ end] =>
           destruct (x !! k) end; done.
Qed.

Lemma set_prop_compose h l k1 v1 k2 v2 k3 v3 k4 v4 :
  k3 = k1 -> k4 = k2 -> k1 ≠ k2 ->
  set_prop (set_prop (set_prop (set_prop h l k1 v1) l k2 v2) l k3 v3) l k4 v4
  = set_prop (set_prop h l k3 v3) l k4 v4.
Proof.
  intros -> -> Hk. unfold set_prop. apply map_eq. intros l'.
  destruct (decide (l = l')) as [<-|Hl].
  - rewrite !lookup_alter_eq. destruct (h !! l) as [o|]; [|done]. cbn. f_equal.
    apply map_eq. intros k.
    destruct (decide (k = k2)) as [->|Hk2]; [by rewrite !lookup_insert_eq|].
    rewrite !(lookup_insert_ne _ k2) by done.
    destruct (decide (k = k1)) as [->|Hk1]; [by rewrite !lookup_insert_eq|].
    by rewrite !lookup_insert_ne.
  - by rewrite !lookup_alter_ne.
Qed.

Lemma getValue_fresh s this md h o :
  h !! _value this = Some o -> (getValue s this md h).1 ≠ _value this.
Proof.
  intros Ho Heq. pose proof (alloc_fresh h
    (spread (spread ∅ (default ∅ (h !! _value this)))
       {[ "padding" := match md with
                       | Some m => computeEditorPadding (notebookOptions s) m
                       | None => padding_value 12 12
                       end ]})) as Hfresh.
  unfold getValue in Heq. rewrite Heq in Hfresh. congruence.
Qed.

Lemma getValue_lookup s this md h :
  (getValue s this md h).2 !! (getValue s this md h).1
  = Some (spread (spread ∅ (default ∅ (h !! _value this)))
            {[ "padding" := match md with
                            | Some m => computeEditorPadding (notebookOptions s) m
                            | None => padding_value 12 12
                            end ]}).
Proof. apply alloc_lookup. Qed.

Lemma getValue_old s this md h l o :
  h !! l = Some o -> (getValue s this md h).2 !! l = Some o.
Proof. apply alloc_lookup_old. Qed.

Lemma getValue_new s this md h : h !! (getValue s this md h).1 = None.
Proof. apply alloc_fresh. Qed.

Lemma _recomputeOptions_old s this h l o :
  h !! l = Some o -> (_recomputeOptions s this h).2 !! l = Some o.
Proof.
  intros Hl. unfold _recomputeOptions.
  pose proof (_computeEditorOptions_old s (language this) h l o Hl) as Hold.
  by destruct (_computeEditorOptions s (language this) h).
Qed.

Lemma _recomputeOptions_this s this h :
  (_recomputeOptions s this h).1
  = {| _value := (_computeEditorOptions s (language this) h).1;
       _lineNumbers := _lineNumbers this;
       _onDidChange := S (_onDidChange this);
       language := language this |}
  /\ (_recomputeOptions s this h).2 = (_computeEditorOptions s (language this) h).2.
Proof.
  unfold _recomputeOptions. by destruct (_computeEditorOptions s (language this) h).
Qed.

End Layers.

(** X1: whatever the user's editor settings and the layout customizations
    hold, [editor.padding] and [editor.readOnly] included, the recomputed
    options have the padding (12, 12) and the editor's read-only flag. *)
Theorem padding_and_readOnly_never_overridden {M : Type} (s : Services M)
    (language : string) :
  computed s language !! "padding" = Some (padding_value 12 12)
  /\ computed s language !! "readOnly"
     = Some (VBool (match viewModel (notebookEditor s) with
                    | Some vm => isReadOnly (options vm)
                    | None => false
                    end)).
Proof. split; [apply computed_padding | apply computed_readOnly]. Qed.

(** X2: a layout customization [editor.k], for [k] other than [padding],
    [readOnly] and [__proto__], decides the recomputed value of [k]: it
    wins over the user's editor settings, the fixed options and the
    derived [lineNumbers] and [folding]. *)
Theorem customization_overrides_lower_layers {M : Type} (s : Services M)
    (language k : string) (v : value) :
  default ∅ (editorOptionsCustomizations (notebookOptions s)) !! ("editor." ++ k) = Some v ->
  k ≠ "padding" -> k ≠ "readOnly" -> k ≠ "__proto__" ->
  computed s language !! k = Some v.
Proof.
  intros Hcustom Hpadding HreadOnly Hproto.
  by rewrite computed_lookup_lower, override_lookup_ne, Hcustom.
Qed.

Lemma customization_overrides_lower_layers_witness :
  computed (Sample.services Sample.cfg_on Sample2.options_padding) "python" !! "minimap"
  = Some (VObj {[ "enabled" := VBool true ]}).
Proof.
  apply (customization_overrides_lower_layers
           (Sample.services Sample.cfg_on Sample2.options_padding) "python" "minimap");
    [vm_compute; reflexivity | discriminate | discriminate | discriminate].
Defined.

(** X3: for a key that is none of [lineNumbers], [folding], [padding],
    [readOnly] and has no layout customization, the recomputed value is
    the fixed option when there is one, whatever the user's editor
    settings say, and the user's editor setting otherwise. *)
Theorem fixed_options_then_user_settings {M : Type} (s : Services M)
    (language k : string) :
  default ∅ (editorOptionsCustomizations (notebookOptions s)) !! ("editor." ++ k) = None ->
  k ≠ "lineNumbers" -> k ≠ "folding" -> k ≠ "padding" -> k ≠ "readOnly" ->
  computed s language !! k
  = match fixedEditorOptions !! k with
    | Some v => Some v
    | None =>
        IConfigurationService.getValue_editor (configurationService s) language !! k
    end.
Proof.
  intros Hcustom Hln Hfold Hpadding HreadOnly.
  rewrite computed_lookup_lower, override_lookup by done.
  replace (if decide (k = "__proto__") then None
           else default ∅ (editorOptionsCustomizations (notebookOptions s))
                  !! ("editor." ++ k)) with (@None value)
    by (case_decide; [done | by rewrite Hcustom]).
  unfold stated_layers. cbv zeta. cbn [take later_wins].
  rewrite lookup_insert_ne, lookup_singleton_ne by done.
  destruct (fixedEditorOptions !! k); [done|].
  by destruct (IConfigurationService.getValue_editor _ _ !! k).
Qed.

Lemma fixed_options_then_user_settings_witness :
  computed (Sample.services Sample.cfg_on Sample.options_fontSize) "python" !! "minimap"
  = Some (VObj {[ "enabled" := VBool false ]}).
Proof.
  refine (eq_trans (fixed_options_then_user_settings
                      (Sample.services Sample.cfg_on Sample.options_fontSize)
                      "python" "minimap" _ _ _ _ _) _);
    [vm_compute; reflexivity | discriminate | discriminate | discriminate | discriminate
    | vm_compute; reflexivity].
Defined.

(** X4: recomputation does not consult the mode stored by
    [setLineNumbers]: after [setLineNumbers(mode)] and a recomputation the
    adapter still holds [mode], but the cached options are the recomputed
    ones, and without an [editor.lineNumbers] customization their
    [lineNumbers] follows the notebook-wide setting alone. *)
Theorem recomputation_forgets_setLineNumbers {M : Type} (s1 s2 : Services M) (this : t)
    (mode : LineNumberMode) (h : gmap nat (gmap string value)) :
  default ∅ (editorOptionsCustomizations (notebookOptions s2)) !! "editor.lineNumbers"
    = None ->
  let r1 := setLineNumbers s1 this mode h in
  let r2 := _recomputeOptions s2 r1.1 r1.2 in
  _lineNumbers r2.1 = mode
  /\ r2.2 !! _value r2.1 = Some (computed s2 (language this))
  /\ computed s2 (language this) !! "lineNumbers"
     = Some (if strict_equals_str
                  (IConfigurationService.getValue (configurationService s2)
                     "notebook.lineNumbers") "on"
             then VStr "on" else VStr "off").
Proof.
  intros Hcustom. cbv zeta. split; [|split].
  - rewrite (proj1 (_recomputeOptions_this _ _ _)). cbn [_lineNumbers].
    by rewrite setLineNumbers_unfold.
  - rewrite _recomputeOptions_value. by rewrite setLineNumbers_unfold.
  - rewrite computed_lookup_lower, override_lookup_ne by done.
    change ("editor." ++ "lineNumbers") with "editor.lineNumbers". rewrite Hcustom.
    unfold stated_layers. cbv zeta. cbn [take later_wins].
    by rewrite lookup_insert_eq.
Qed.

Lemma recomputation_forgets_setLineNumbers_witness :
  let r1 := setLineNumbers (Sample.services Sample.cfg_off Sample.options_fontSize)
              Sample.adapter.1 on Sample.adapter.2 in
  let r2 := _recomputeOptions (Sample.services Sample.cfg_off Sample.options_fontSize)
              r1.1 r1.2 in
  _lineNumbers r2.1 = on
  /\ computed (Sample.services Sample.cfg_off Sample.options_fontSize) "python"
       !! "lineNumbers" = Some (VStr "off").
Proof.
  destruct (recomputation_forgets_setLineNumbers
              (Sample.services Sample.cfg_off Sample.options_fontSize)
              (Sample.services Sample.cfg_off Sample.options_fontSize)
              Sample.adapter.1 on Sample.adapter.2) as (Hmode & _ & Hln).
  - vm_compute. reflexivity.
  - split; [exact Hmode | exact Hln].
Defined.

(** X5: of two consecutive [setLineNumbers] calls the last one decides the
    store: the store is the one the second call alone would have left (so
    repeating a call changes nothing more), while each call fires its
    notification. *)
Theorem setLineNumbers_last_call_wins {M : Type} (s1 s2 : Services M) (this : t)
    (mode1 mode2 : LineNumberMode) (h : gmap nat (gmap string value)) :
  let r1 := setLineNumbers s1 this mode1 h in
  let r2 := setLineNumbers s2 r1.1 mode2 r1.2 in
  r2.2 = (setLineNumbers s2 this mode2 h).2
  /\ _lineNumbers r2.1 = mode2
  /\ _onDidChange r2.1 = S (S (_onDidChange this)).
Proof.
  cbv zeta. rewrite !setLineNumbers_unfold. cbv zeta. cbn [fst snd _value _lineNumbers _onDidChange].
  split; [|done]. by apply set_prop_compose.
Qed.

(** X6: the object returned by [getValue] is a snapshot: a later
    [setLineNumbers] or recomputation leaves it as it was returned. *)
Theorem getValue_snapshot_is_isolated {M : Type} (s s' : Services M) (this : t)
    (internalMetadata : option M) (mode : LineNumberMode)
    (h : gmap nat (gmap string value)) (o : gmap string value) :
  h !! _value this = Some o ->
  let g := getValue s this internalMetadata h in
  is_Some (g.2 !! g.1)
  /\ (setLineNumbers s' this mode g.2).2 !! g.1 = g.2 !! g.1
  /\ (_recomputeOptions s' this g.2).2 !! g.1 = g.2 !! g.1.
Proof.
  intros Ho. cbv zeta.
  pose proof (getValue_fresh s this internalMetadata h o Ho) as Hfresh.
  assert (is_Some ((getValue s this internalMetadata h).2
                     !! (getValue s this internalMetadata h).1)) as [copy Hcopy].
  { unfold getValue. rewrite alloc_lookup. by eexists. }
  split; [by eexists|]. split.
  - rewrite setLineNumbers_unfold. cbv zeta. cbn [snd].
    by rewrite !set_prop_lookup_ne.
  - rewrite Hcopy. by apply _recomputeOptions_old.
Qed.

Lemma getValue_snapshot_is_isolated_witness :
  let g := getValue (Sample.services Sample.cfg_off Sample.options_fontSize)
             Sample.adapter.1 None Sample.adapter.2 in
  (setLineNumbers (Sample.services Sample.cfg_off Sample.options_fontSize)
     Sample.adapter.1 on g.2).2 !! g.1 = g.2 !! g.1.
Proof.
  destruct (getValue_snapshot_is_isolated
              (Sample.services Sample.cfg_off Sample.options_fontSize)
              (Sample.services Sample.cfg_off Sample.options_fontSize)
              Sample.adapter.1 None on Sample.adapter.2 _
              (constructor_value _ _ _)) as (_ & Hset & _).
  exact Hset.
Defined.

(** X7: right after a recomputation, [getValue()] without metadata
    returns a new object with exactly the contents of the cached one, and
    a second read returns yet another object with the same contents. *)
Theorem getValue_after_recomputation_copies_cache {M : Type} (s s' : Services M)
    (this : t) (h : gmap nat (gmap string value)) :
  let r := _recomputeOptions s this h in
  let g1 := getValue s' r.1 None r.2 in
  let g2 := getValue s' r.1 None g1.2 in
  g1.1 ≠ _value r.1
  /\ g1.2 !! g1.1 = r.2 !! _value r.1
  /\ g2.1 ≠ g1.1 /\ g2.1 ≠ _value r.1
  /\ g2.2 !! g2.1 = r.2 !! _value r.1
  /\ g2.2 !! g1.1 = r.2 !! _value r.1.
Proof.
  cbv zeta.
  pose proof (_recomputeOptions_value s this h) as Hcache.
  set (r := _recomputeOptions s this h) in *.
  assert (forall o : gmap string value,
             o !! "padding" = Some (padding_value 12 12) ->
             spread (spread ∅ o) {[ "padding" := padding_value 12 12 ]} = o) as Hcopy.
  { intros o Ho. apply map_eq. intros k. rewrite lookup_spread, spread_empty.
    destruct (decide (k = "padding")) as [->|Hk].
    - by rewrite lookup_singleton_eq.
    - by rewrite lookup_singleton_ne. }
  pose proof (getValue_fresh s' r.1 None r.2 _ Hcache) as Hfresh1.
  assert ((getValue s' r.1 None r.2).2 !! (getValue s' r.1 None r.2).1
          = Some (computed s (language this))) as Hg1.
  { rewrite getValue_lookup, Hcache. cbn [from_option id].
    f_equal. apply Hcopy, computed_padding. }
  assert ((getValue s' r.1 None r.2).2 !! _value r.1
          = Some (computed s (language this))) as Hcache1 by by apply getValue_old.
  pose proof (getValue_fresh s' r.1 None _ _ Hcache1) as Hfresh2.
  split; [done|]. split; [by rewrite Hg1, Hcache|].
  split.
  - intros Heq.
    pose proof (getValue_new s' r.1 None (getValue s' r.1 None r.2).2) as Hnew.
    rewrite Heq in Hnew. congruence.
  - split; [done|]. split.
    + rewrite getValue_lookup, Hcache1, Hcache.
      cbn [from_option id]. f_equal. apply Hcopy, computed_padding.
    + rewrite Hcache. by apply getValue_old.
Qed.

(** X8: a recomputation replaces the cached object and patches nothing:
    the adapter names a new object, the object it named before and every
    other object of the store are as they were, and the store has grown
    by that one object. *)
Theorem recomputation_replaces_cache {M : Type} (s : Services M) (this : t)
    (h : gmap nat (gmap string value)) (o : gmap string value) :
  h !! _value this = Some o ->
  let r := _recomputeOptions s this h in
  _value r.1 ≠ _value this
  /\ r.2 !! _value this = Some o
  /\ (forall l o', h !! l = Some o' -> r.2 !! l = Some o')
  /\ dom r.2 = {[ _value r.1 ]} ∪ dom h
  /\ _value r.1 ∉ dom h.
Proof.
  intros Ho. cbv zeta.
  destruct (_recomputeOptions_this s this h) as [-> ->]. cbn [_value].
  pose proof (_computeEditorOptions_fresh s (language this) h) as Hfresh.
  split; [intros Heq; rewrite Heq in Hfresh; congruence|].
  split; [by apply _computeEditorOptions_old|].
  split; [intros l o'; apply _computeEditorOptions_old|].
  split; [apply dom_insert_L | by apply not_elem_of_dom].
Qed.

Lemma recomputation_replaces_cache_witness :
  let r := _recomputeOptions (Sample.services Sample.cfg_on Sample.options_fontSize)
             Sample.adapter.1 Sample.adapter.2 in
  _value r.1 ≠ _value Sample.adapter.1.
Proof.
  destruct (recomputation_replaces_cache
              (Sample.services Sample.cfg_on Sample.options_fontSize)
              Sample.adapter.1 Sample.adapter.2 _
              (constructor_value _ _ _)) as (Hnew & _).
  exact Hnew.
Defined.

(* ===================================================================== *)
(** ** The toggles and the effective line-number state *)
(* ===================================================================== *)

Section Effective.

Context {P : Type}.
Implicit Types (w : World P).

(** The notebook-wide flag every consumer derives from the setting. *)
Lemma currentLineNumberIsOn_cases w c :
  currentLineNumberIsOn w c
  = match cell_lineNumbers w c with
    | on => true
    | off => false
    | inherit =>
        strict_equals_str
          (IConfigurationService.getValue (w_configurationService w)
             "notebook.lineNumbers") "on"
    end.
Proof. unfold currentLineNumberIsOn. cbv zeta. by destruct (cell_lineNumbers w c). Qed.

Lemma toggle_cell_mode w c :
  cell_lineNumbers (ToggleActiveLineNumberAction.toggle w (Some c)) c
  = if currentLineNumberIsOn w c then off else on.
Proof.
  unfold ToggleActiveLineNumberAction.toggle, currentLineNumberIsOn. cbv zeta.
  destruct (_ || _); cbn; apply fn_lookup_insert.
Qed.

(** With its cell resolved, [run] is the closing [if (cell)] statement. *)
Lemma run_resolved (get : option P -> option INotebookEditor) w
    (context : option ToggleActiveLineNumberAction.CellContext) (c : nat) :
  context ≫= ToggleActiveLineNumberAction.cell = Some c
  \/ (context ≫= ToggleActiveLineNumberAction.cell = None
      /\ exists editor,
           get (activeEditorPane w) = Some editor
           /\ hasModel editor = true /\ getActiveCell editor = Some c) ->
  ToggleActiveLineNumberAction.run get w context
  = Normal (ToggleActiveLineNumberAction.toggle w (Some c)).
Proof.
  intros Hcell. unfold ToggleActiveLineNumberAction.run. cbv zeta.
  destruct Hcell as [-> | (-> & editor & -> & Hmodel & Hactive)]; [done|].
  cbn -[ToggleActiveLineNumberAction.toggle]. rewrite Hmodel.
  cbn -[ToggleActiveLineNumberAction.toggle]. by rewrite Hactive.
Qed.

Lemma notebook_toggle_flag w :
  strict_equals_str
    (IConfigurationService.getValue
       (w_configurationService (ToggleLineNumberAction.run w)) "notebook.lineNumbers") "on"
  = negb (strict_equals_str
            (IConfigurationService.getValue (w_configurationService w)
               "notebook.lineNumbers") "on").
Proof.
  unfold ToggleLineNumberAction.run. cbv zeta.
  destruct (strict_equals_str
              (IConfigurationService.getValue (w_configurationService w) _) "on");
    unfold IConfigurationService.getValue at 1, IConfigurationService.updateValue;
    cbn [w_configurationService IConfigurationService.settings];
    by rewrite lookup_insert_eq.
Qed.

Lemma notebook_toggle_stored w :
  IConfigurationService.settings (w_configurationService (ToggleLineNumberAction.run w))
    !! "notebook.lineNumbers"
  = Some (if strict_equals_str
               (IConfigurationService.getValue (w_configurationService w)
                  "notebook.lineNumbers") "on"
          then VStr "off" else VStr "on").
Proof.
  unfold ToggleLineNumberAction.run. cbv zeta.
  destruct (strict_equals_str _ "on");
    unfold IConfigurationService.updateValue;
    cbn [w_configurationService IConfigurationService.settings];
    apply lookup_insert_eq.
Qed.

End Effective.

(** X9: the test [currentLineNumberIsOn] of the per-cell toggle agrees
    with every row of the table in the comment above it, and the table
    has a row for each notebook-wide setting of the enum and each cell
    mode. *)
Theorem currentLineNumberIsOn_matches_documented_table {P : Type} (w : World P)
    (c : nat) (notebook cell result : LineNumberMode) :
  (notebook, cell, result) ∈ documented_table ->
  IConfigurationService.getValue (w_configurationService w) "notebook.lineNumbers"
    = mode_value notebook ->
  cell_lineNumbers w c = cell ->
  currentLineNumberIsOn w c = bool_decide (result = on)
  /\ forall notebook' cell',
       notebook' ≠ inherit ->
       exists result', (notebook', cell', result') ∈ documented_table.
Proof.
  intros Hrow Hsetting Hcell. split.
  - rewrite currentLineNumberIsOn_cases, Hcell, Hsetting.
    unfold documented_table in Hrow.
    repeat (apply elem_of_cons in Hrow as [[= -> -> ->] | Hrow]; [done|]).
    by apply elem_of_nil in Hrow.
  - clear. intros notebook' cell' Hnotebook. unfold documented_table.
    exists (match cell' with inherit => notebook' | explicit => explicit end).
    destruct notebook', cell'; try done;
      repeat first [apply list_elem_of_here | apply list_elem_of_further].
Qed.

Lemma currentLineNumberIsOn_matches_documented_table_witness :
  currentLineNumberIsOn (Sample.world Sample.cfg_on None) 2 = true.
Proof.
  refine (proj1 (currentLineNumberIsOn_matches_documented_table
                   (Sample.world Sample.cfg_on None) 2 on inherit on _ _ _)).
  - apply list_elem_of_here.
  - reflexivity.
  - reflexivity.
Defined.

(** X10: with its cell resolved, the per-cell toggle flips that cell's
    effective state (the test [currentLineNumberIsOn]) and leaves the
    effective state of every other cell alone. *)
Theorem per_cell_toggle_flips_effective_state {P : Type}
    (getNotebookEditorFromEditorPane : option P -> option INotebookEditor)
    (w : World P) (context : option ToggleActiveLineNumberAction.CellContext)
    (c : nat) :
  context ≫= ToggleActiveLineNumberAction.cell = Some c
  \/ (context ≫= ToggleActiveLineNumberAction.cell = None
      /\ exists editor,
           getNotebookEditorFromEditorPane (activeEditorPane w) = Some editor
           /\ hasModel editor = true /\ getActiveCell editor = Some c) ->
  exists w',
    ToggleActiveLineNumberAction.run getNotebookEditorFromEditorPane w context = Normal w'
    /\ currentLineNumberIsOn w' c = negb (currentLineNumberIsOn w c)
    /\ forall c', c' ≠ c -> currentLineNumberIsOn w' c' = currentLineNumberIsOn w c'.
Proof.
  intros Hcell. eexists. split; [by apply run_resolved|]. split.
  - rewrite (currentLineNumberIsOn_cases (ToggleActiveLineNumberAction.toggle _ _)).
    rewrite toggle_cell_mode. by destruct (currentLineNumberIsOn w c).
  - intros c' Hc'. rewrite !currentLineNumberIsOn_cases.
    rewrite toggle_other_cells by done.
    by rewrite (proj1 (toggle_services w (Some c))).
Qed.

Lemma per_cell_toggle_flips_effective_state_witness :
  exists w',
    ToggleActiveLineNumberAction.run Sample.no_editor
      (Sample.world Sample.cfg_off None)
      (Some {| ToggleActiveLineNumberAction.cell := Some 2 |}) = Normal w'
    /\ currentLineNumberIsOn w' 2
       = negb (currentLineNumberIsOn (Sample.world Sample.cfg_off None) 2).
Proof.
  destruct (per_cell_toggle_flips_effective_state Sample.no_editor
              (Sample.world Sample.cfg_off None)
              (Some {| ToggleActiveLineNumberAction.cell := Some 2 |}) 2)
    as (w' & Hrun & Hflip & _).
  - left. reflexivity.
  - exists w'. split; [exact Hrun | exact Hflip].
Defined.

(** X11: two per-cell toggles in a row pin the cell to the state it
    showed before: its mode ends as ['on'] when it was effectively on and
    as ['off'] otherwise, so an explicit mode comes back and ['inherit']
    does not. *)
Theorem per_cell_toggle_twice_pins_effective_state {P : Type}
    (getNotebookEditorFromEditorPane : option P -> option INotebookEditor)
    (w : World P) (context : option ToggleActiveLineNumberAction.CellContext)
    (c : nat) :
  context ≫= ToggleActiveLineNumberAction.cell = Some c
  \/ (context ≫= ToggleActiveLineNumberAction.cell = None
      /\ exists editor,
           getNotebookEditorFromEditorPane (activeEditorPane w) = Some editor
           /\ hasModel editor = true /\ getActiveCell editor = Some c) ->
  exists w1 w2,
    ToggleActiveLineNumberAction.run getNotebookEditorFromEditorPane w context = Normal w1
    /\ ToggleActiveLineNumberAction.run getNotebookEditorFromEditorPane w1 context = Normal w2
    /\ cell_lineNumbers w2 c = (if currentLineNumberIsOn w c then on else off)
    /\ currentLineNumberIsOn w2 c = currentLineNumberIsOn w c
    /\ (cell_lineNumbers w c ≠ inherit -> cell_lineNumbers w2 c = cell_lineNumbers w c)
    /\ (cell_lineNumbers w c = inherit -> cell_lineNumbers w2 c ≠ cell_lineNumbers w c).
Proof.
  intros Hcell. do 2 eexists.
  split; [by apply run_resolved|].
  split.
  { apply run_resolved.
    rewrite (proj2 (toggle_services w (Some c))). exact Hcell. }
  assert (cell_lineNumbers
            (ToggleActiveLineNumberAction.toggle
               (ToggleActiveLineNumberAction.toggle w (Some c)) (Some c)) c
          = if currentLineNumberIsOn w c then on else off) as Hmode.
  { rewrite toggle_cell_mode.
    rewrite (currentLineNumberIsOn_cases (ToggleActiveLineNumberAction.toggle _ _)).
    rewrite toggle_cell_mode. by destruct (currentLineNumberIsOn w c). }
  split; [exact Hmode|]. split; [|split].
  - rewrite (currentLineNumberIsOn_cases (ToggleActiveLineNumberAction.toggle _ _)).
    rewrite Hmode. by destruct (currentLineNumberIsOn w c).
  - rewrite Hmode, currentLineNumberIsOn_cases. by destruct (cell_lineNumbers w c).
  - rewrite Hmode. intros ->. by destruct (currentLineNumberIsOn w c).
Qed.

Lemma per_cell_toggle_twice_pins_effective_state_witness :
  exists w1 w2,
    ToggleActiveLineNumberAction.run Sample.some_editor
      (Sample.world Sample.cfg_on (Some tt)) None = Normal w1
    /\ ToggleActiveLineNumberAction.run Sample.some_editor w1 None = Normal w2
    /\ cell_lineNumbers w2 2 = on.
Proof.
  destruct (per_cell_toggle_twice_pins_effective_state Sample.some_editor
              (Sample.world Sample.cfg_on (Some tt)) None 2)
    as (w1 & w2 & Hrun1 & Hrun2 & Hmode & _).
  - right. split; [reflexivity|].
    exists Sample.editor_with_model. repeat split; reflexivity.
  - exists w1, w2. split; [exact Hrun1|]. split; [exact Hrun2 | exact Hmode].
Defined.

(** X12: the notebook-wide toggle flips the flag that every consumer
    derives from the setting, always stores a value of the registered
    enum, and two toggles in a row store ['on'] when the setting read as
    on at first and ['off'] otherwise. *)
Theorem notebook_toggle_flips_and_normalises {P : Type} (w : World P) :
  let flag (w : World P) :=
    strict_equals_str
      (IConfigurationService.getValue (w_configurationService w) "notebook.lineNumbers")
      "on" in
  let w1 := ToggleLineNumberAction.run w in
  let w2 := ToggleLineNumberAction.run w1 in
  flag w1 = negb (flag w)
  /\ (exists v,
        IConfigurationService.settings (w_configurationService w1) !! "notebook.lineNumbers"
          = Some (VStr v)
        /\ v ∈ schema_enum notebook_lineNumbers_schema)
  /\ IConfigurationService.settings (w_configurationService w2) !! "notebook.lineNumbers"
     = Some (if flag w then VStr "on" else VStr "off")
  /\ flag w2 = flag w.
Proof.
  cbv zeta. split; [apply notebook_toggle_flag|]. split; [|split].
  - rewrite notebook_toggle_stored. unfold notebook_lineNumbers_schema.
    cbn [schema_enum].
    destruct (strict_equals_str _ "on"); eexists; (split; [reflexivity|]);
      repeat first [apply list_elem_of_here | apply list_elem_of_further].
  - rewrite notebook_toggle_stored, notebook_toggle_flag.
    by destruct (strict_equals_str _ "on").
  - rewrite !notebook_toggle_flag. apply negb_involutive.
Qed.

(** X13: when the setting is stored as one of the two values of the
    registered enum, two notebook-wide toggles in a row restore the world
    exactly. *)
Theorem notebook_toggle_twice_restores {P : Type} (w : World P) (v : string) :
  IConfigurationService.settings (w_configurationService w) !! "notebook.lineNumbers"
    = Some (VStr v) ->
  v ∈ schema_enum notebook_lineNumbers_schema ->
  ToggleLineNumberAction.run (ToggleLineNumberAction.run w) = w.
Proof.
  intros Hstored Henum.
  destruct w as [[settings editorSection] pane cells]. cbn in Hstored.
  unfold notebook_lineNumbers_schema in Henum. cbn [schema_enum] in Henum.
  assert (v = "off" \/ v = "on") as [-> | ->].
  { apply elem_of_cons in Henum as [-> | Henum]; [by left|].
    apply elem_of_cons in Henum as [-> | Henum]; [by right|].
    by apply elem_of_nil in Henum. }
  all: unfold ToggleLineNumberAction.run, IConfigurationService.getValue,
         IConfigurationService.updateValue; cbn; rewrite Hstored; cbn;
       rewrite lookup_insert_eq; cbn;
       by rewrite insert_insert_eq, insert_id.
Qed.

Lemma notebook_toggle_twice_restores_witness :
  ToggleLineNumberAction.run
    (ToggleLineNumberAction.run (Sample.world Sample.cfg_off (Some tt)))
  = Sample.world Sample.cfg_off (Some tt).
Proof.
  apply (notebook_toggle_twice_restores (Sample.world Sample.cfg_off (Some tt)) "off").
  - vm_compute. reflexivity.
  - apply list_elem_of_here.
Defined.

(** X14: the notebook-wide toggle flips the effective state of exactly
    the cells whose mode is ['inherit']; a cell with an explicit mode
    keeps its effective state. *)
Theorem notebook_toggle_flips_inheriting_cells {P : Type} (w : World P) (c : nat) :
  currentLineNumberIsOn (ToggleLineNumberAction.run w) c
  = if bool_decide (cell_lineNumbers w c = inherit)
    then negb (currentLineNumberIsOn w c)
    else currentLineNumberIsOn w c.
Proof.
  rewrite !currentLineNumberIsOn_cases, notebook_toggle_flag.
  assert (cell_lineNumbers (ToggleLineNumberAction.run w) = cell_lineNumbers w) as ->.
  { unfold ToggleLineNumberAction.run. cbv zeta. by destruct (strict_equals_str _ "on"). }
  by destruct (cell_lineNumbers w c).
Qed.

(* ===================================================================== *)
(** ** The life of an adapter *)
(* ===================================================================== *)

Section Life.

Import Subscriptions.
Context {M : Type}.
Implicit Types (s : Services M) (a : instance) (h : gmap nat (gmap string value)).
Implicit Types (calls : list (Services M * Call M)).

Lemma recompute_unfold s a h :
  recompute s a h
  = ({| this := (_recomputeOptions s (this a) h).1;
        _localDisposableStore := _localDisposableStore a |},
     (_recomputeOptions s (this a) h).2).
Proof. unfold recompute. by destruct (_recomputeOptions s (this a) h). Qed.

Lemma guard_ok_model s :
  guard_ok (notebookEditor s) = true -> hasModel (notebookEditor s) = true ->
  exists vm, viewModel (notebookEditor s) = Some vm.
Proof.
  unfold guard_ok. intros Hguard Hmodel. rewrite Hmodel in Hguard.
  destruct (viewModel (notebookEditor s)) as [vm|]; [by exists vm | done].
Qed.

(** What a property of instances and stores must withstand to hold
    throughout the life of an adapter. *)
Record stable (I : instance -> gmap nat (gmap string value) -> Prop) : Prop := {
  stable_recompute : forall s a h, I a h -> I (recompute s a h).1 (recompute s a h).2;
  stable_set : forall s a mode h,
      I a h ->
      I {| this := (setLineNumbers s (this a) mode h).1;
           _localDisposableStore := _localDisposableStore a |}
        (setLineNumbers s (this a) mode h).2;
  stable_get : forall s a md h, I a h -> I a (getValue s (this a) md h).2;
  stable_clear : forall a h,
      I a h -> I {| this := this a; _localDisposableStore := [] |} h;
  stable_model : forall s a h vm,
      I a h ->
      I (recompute s {| this := this a; _localDisposableStore := [vm] |} h).1
        (recompute s {| this := this a; _localDisposableStore := [vm] |} h).2
}.

Lemma dispatch_stable I s c a h :
  stable I -> guard_ok (notebookEditor s) = true -> I a h ->
  exists r, dispatch s c a h = Normal r /\ I r.1 r.2.
Proof.
  intros [Hrec Hset Hget Hclear Hmodel'] Hguard HI.
  assert (I a h) as HI' by done. destruct a as [this0 store0].
  destruct c as [e | e | | listener | mode | md]; cbn [dispatch].
  - eexists. split; [reflexivity|]. unfold onDidChangeConfiguration.
    destruct (_ || _); [by apply Hrec | done].
  - eexists. split; [reflexivity|]. unfold onDidChangeOptions.
    destruct (_ || _); [by apply Hrec | done].
  - unfold onDidChangeModel. cbv zeta.
    destruct (hasModel (notebookEditor s)) eqn:Hmodel.
    + destruct (guard_ok_model s Hguard Hmodel) as [vm ->].
      eexists. split; [reflexivity|]. cbn [this _localDisposableStore app].
      by apply (Hmodel' s {| this := this0; _localDisposableStore := store0 |}).
    + eexists. split; [reflexivity|].
      by apply (Hclear {| this := this0; _localDisposableStore := store0 |}).
  - cbn [_localDisposableStore]. destruct (store0 !! listener);
      (eexists; split; [reflexivity|]); [by apply Hrec | done].
  - pose proof (Hset s _ mode h HI) as Hstep. cbn [this _localDisposableStore] in *.
    destruct (setLineNumbers s this0 mode h) as [this' h'].
    eexists. split; [reflexivity | exact Hstep].
  - eexists. split; [reflexivity|]. by apply Hget.
Qed.

Lemma play_stable I calls a h :
  stable I -> guards_ok calls = true -> I a h ->
  exists r, play calls a h = Normal r /\ I r.1 r.2.
Proof.
  intros Hstable. revert a h.
  induction calls as [|[s c] calls IH]; intros a h Hguards HI.
  - by exists (a, h).
  - cbn [guards_ok forallb fst] in Hguards.
    apply andb_true_iff in Hguards as [Hguard Hguards].
    destruct (dispatch_stable I s c a h Hstable Hguard HI) as (r & Hr & HIr).
    cbn [play]. rewrite Hr.
    destruct (IH r.1 r.2 Hguards HIr) as (r' & Hr' & HIr').
    exists r'. split; [exact Hr' | exact HIr'].
Qed.

Lemma new_normal s language h :
  guard_ok (notebookEditor s) = true ->
  exists store,
    new s language h
    = Normal ({| this := (constructor s language h).1; _localDisposableStore := store |},
              (constructor s language h).2)
    /\ length store <= 1.
Proof.
  intros Hguard. unfold new.
  destruct (hasModel (notebookEditor s)) eqn:Hmodel.
  - destruct (guard_ok_model s Hguard Hmodel) as [vm ->].
    exists [vm]. split; [|done]. cbn. by destruct (constructor s language h).
  - exists []. split; [|cbn; lia]. cbn. by destruct (constructor s language h).
Qed.

Lemma cache_ok_computed s language h l :
  h !! l = Some (computed s language) ->
  forall this, _value this = l -> cache_ok this h.
Proof.
  intros Hl this <-. exists (computed s language). split; [done|].
  split; [apply computed_padding|]. eexists. apply computed_readOnly.
Qed.

Lemma cache_ok_stable language0 :
  stable (fun a h => cache_ok (this a) h /\ language (this a) = language0).
Proof.
  split.
  - intros s a h [Hcache Hlanguage]. rewrite recompute_unfold. cbn [fst snd this].
    split; [|by rewrite (proj1 (_recomputeOptions_this _ _ _))].
    eapply cache_ok_computed; [apply _recomputeOptions_value | done].
  - intros s a mode h [(o & Ho & Hpadding & b & HreadOnly) Hlanguage]. cbn [this].
    split; [|by rewrite setLineNumbers_unfold].
    eexists. split; [by apply setLineNumbers_value|].
    rewrite !lookup_insert_ne by done. eauto.
  - intros s a md h [(o & Ho & Hrest) Hlanguage]. split; [|done].
    exists o. split; [by apply getValue_old | done].
  - by intros a h.
  - intros s a h vm [Hcache Hlanguage]. rewrite recompute_unfold. cbn [fst snd this].
    split; [|by rewrite (proj1 (_recomputeOptions_this _ _ _))].
    eapply cache_ok_computed; [apply _recomputeOptions_value | done].
Qed.

Lemma listeners_stable :
  stable (fun a h => length (_localDisposableStore a) <= 1).
Proof.
  split.
  - intros s a h Hlen. by rewrite recompute_unfold.
  - by intros s a mode h Hlen.
  - by intros s a md h Hlen.
  - intros a h _. cbn. lia.
  - intros s a h vm _. rewrite recompute_unfold. cbn. lia.
Qed.

(** The count of notifications never goes down; while it stands still the
    adapter's fields and the cached object are the ones it started from,
    and the local store is the one it started from or empty. *)
Lemma announced_stable (a0 : instance) (o : gmap string value) :
  stable (fun a h =>
            _onDidChange (this a0) <= _onDidChange (this a)
            /\ (exists o', h !! _value (this a) = Some o')
            /\ (_onDidChange (this a) = _onDidChange (this a0) ->
                this a = this a0
                /\ h !! _value (this a0) = Some o
                /\ (_localDisposableStore a = _localDisposableStore a0
                    \/ _localDisposableStore a = []))).
Proof.
  split.
  - intros s a h (Hle & _ & _). rewrite recompute_unfold. cbn [fst snd this].
    rewrite _recomputeOptions_value.
    rewrite (proj1 (_recomputeOptions_this _ _ _)). cbn [_onDidChange].
    split; [lia|]. split; [by eexists | lia].
  - intros s a mode h (Hle & [o' Ho'] & _). cbn [this].
    rewrite (setLineNumbers_value s (this a) mode h o' Ho').
    rewrite setLineNumbers_unfold. cbv zeta. cbn [fst _onDidChange].
    split; [lia|]. split; [by eexists | lia].
  - intros s a md h (Hle & [o' Ho'] & Hsame).
    split; [done|]. split; [exists o'; by apply getValue_old|].
    intros Heq. destruct (Hsame Heq) as (Hthis & Ho & Hstore).
    split; [done|]. split; [by apply getValue_old | done].
  - intros a h (Hle & Hcache & Hsame). cbn [this _localDisposableStore].
    split; [done|]. split; [done|].
    intros Heq. destruct (Hsame Heq) as (Hthis & Ho & _). by auto.
  - intros s a h vm (Hle & _ & _). rewrite recompute_unfold. cbn [fst snd this].
    rewrite _recomputeOptions_value.
    rewrite (proj1 (_recomputeOptions_this _ _ _)). cbn [_onDidChange].
    split; [lia|]. split; [by eexists | lia].
Qed.

Lemma dispatch_count s c a h r :
  dispatch s c a h = Normal r -> _onDidChange (this r.1) <= S (_onDidChange (this a)).
Proof.
  destruct c as [e | e | | listener | mode | md]; cbn [dispatch].
  - unfold onDidChangeConfiguration. destruct (_ || _); intros [= <-].
    + rewrite recompute_unfold. cbn [fst this].
      by rewrite (proj1 (_recomputeOptions_this _ _ _)).
    + cbn. lia.
  - unfold onDidChangeOptions. destruct (_ || _); intros [= <-].
    + rewrite recompute_unfold. cbn [fst this].
      by rewrite (proj1 (_recomputeOptions_this _ _ _)).
    + cbn. lia.
  - unfold onDidChangeModel. cbv zeta.
    destruct (hasModel (notebookEditor s)); [|intros [= <-]; cbn; lia].
    destruct (viewModel (notebookEditor s)); [|done]. intros [= <-].
    rewrite recompute_unfold. cbn [fst this].
    by rewrite (proj1 (_recomputeOptions_this _ _ _)).
  - destruct (_ !! listener); intros [= <-]; [|cbn; lia].
    rewrite recompute_unfold. cbn [fst this].
    by rewrite (proj1 (_recomputeOptions_this _ _ _)).
  - rewrite setLineNumbers_unfold. cbv zeta. intros [= <-]. cbn. lia.
  - intros [= <-]. cbn. lia.
Qed.

Lemma play_count calls a h r :
  play calls a h = Normal r ->
  _onDidChange (this r.1) <= _onDidChange (this a) + length calls.
Proof.
  revert a h. induction calls as [|[s c] calls IH]; intros a h.
  - intros [= <-]. cbn. lia.
  - cbn [play]. destruct (dispatch s c a h) as [r1|] eqn:Hstep; [|done].
    intros Hplay. apply IH in Hplay. apply dispatch_count in Hstep.
    cbn [length]. lia.
Qed.

End Life.

(** X15: an adapter is constructed, then its listeners run and its
    methods are called in any order, the collaborators changing freely in
    between (their editors respecting the [hasModel] type guard).  Every
    step completes normally, and at the end the cached object exists and
    holds the padding (12, 12) and a boolean [readOnly], and the adapter
    has the language it was constructed with. *)
Theorem adapter_life_keeps_cache {M : Type} (s0 : Services M) (language0 : string)
    (h0 : gmap nat (gmap string value))
    (calls : list (Services M * Subscriptions.Call M)) :
  Subscriptions.guard_ok (notebookEditor s0) = true ->
  Subscriptions.guards_ok calls = true ->
  exists a0 h1 r,
    Subscriptions.new s0 language0 h0 = Normal (a0, h1)
    /\ Subscriptions.play calls a0 h1 = Normal r
    /\ cache_ok (Subscriptions.this r.1) r.2
    /\ language (Subscriptions.this r.1) = language0.
Proof.
  intros Hguard Hguards.
  destruct (new_normal s0 language0 h0 Hguard) as (store & Hnew & _).
  destruct (play_stable _ calls
              {| Subscriptions.this := (constructor s0 language0 h0).1;
                 Subscriptions._localDisposableStore := store |}
              (constructor s0 language0 h0).2
              (cache_ok_stable language0) Hguards) as (r & Hplay & Hcache & Hlanguage).
  { cbn [Subscriptions.this]. split.
    - eapply cache_ok_computed; [apply constructor_value | done].
    - unfold constructor. by destruct (_computeEditorOptions s0 language0 h0). }
  eexists _, _, r. split; [exact Hnew|]. split; [exact Hplay|]. by split.
Qed.

Lemma adapter_life_keeps_cache_witness :
  exists a0 h1 r,
    Subscriptions.new (Sample.services Sample.cfg_off Sample.options_folding) "python" ∅
      = Normal (a0, h1)
    /\ Subscriptions.play Sample2.calls a0 h1 = Normal r
    /\ cache_ok (Subscriptions.this r.1) r.2.
Proof.
  destruct (adapter_life_keeps_cache
              (Sample.services Sample.cfg_off Sample.options_folding) "python" ∅
              Sample2.calls) as (a0 & h1 & r & Hnew & Hplay & Hcache & _).
  - reflexivity.
  - reflexivity.
  - exists a0, h1, r. split; [exact Hnew|]. split; [exact Hplay | exact Hcache].
Defined.

(** X16: throughout such a life the local store holds at most one view
    model listener; a model change drops whatever the store held, and
    leaves the listener on the editor's view model when the editor has a
    model and nothing otherwise. *)
Theorem adapter_life_keeps_one_listener {M : Type} (s0 : Services M) (language0 : string)
    (h0 : gmap nat (gmap string value))
    (calls : list (Services M * Subscriptions.Call M)) :
  Subscriptions.guard_ok (notebookEditor s0) = true ->
  Subscriptions.guards_ok calls = true ->
  (exists a0 h1 r,
      Subscriptions.new s0 language0 h0 = Normal (a0, h1)
      /\ Subscriptions.play calls a0 h1 = Normal r
      /\ length (Subscriptions._localDisposableStore r.1) <= 1)
  /\ forall a h,
       exists r,
         Subscriptions.onDidChangeModel s0 a h = Normal r
         /\ Subscriptions._localDisposableStore r.1
            = if hasModel (notebookEditor s0)
              then option_list (viewModel (notebookEditor s0))
              else [].
Proof.
  intros Hguard Hguards. split.
  - destruct (new_normal s0 language0 h0 Hguard) as (store & Hnew & Hlen).
    destruct (play_stable _ calls
                {| Subscriptions.this := (constructor s0 language0 h0).1;
                   Subscriptions._localDisposableStore := store |}
                (constructor s0 language0 h0).2
                listeners_stable Hguards Hlen) as (r & Hplay & Hlisteners).
    eexists _, _, r. split; [exact Hnew|]. by split.
  - intros a h. unfold Subscriptions.onDidChangeModel. cbv zeta.
    destruct (hasModel (notebookEditor s0)) eqn:Hmodel.
    + destruct (guard_ok_model s0 Hguard Hmodel) as [vm ->].
      eexists. split; [reflexivity|]. by rewrite recompute_unfold.
    + by eexists.
Qed.

Lemma adapter_life_keeps_one_listener_witness :
  exists a0 h1 r,
    Subscriptions.new (Sample.services Sample.cfg_off Sample.options_folding) "python" ∅
      = Normal (a0, h1)
    /\ Subscriptions.play Sample2.calls a0 h1 = Normal r
    /\ length (Subscriptions._localDisposableStore r.1) <= 1.
Proof.
  destruct (adapter_life_keeps_one_listener
              (Sample.services Sample.cfg_off Sample.options_folding) "python" ∅
              Sample2.calls) as [Hlife _].
  - reflexivity.
  - reflexivity.
  - exact Hlife.
Defined.

(** X17: no change of the cached options is silent.  Over any sequence
    of listener runs and method calls on an adapter whose cached object
    exists, the count of notifications never goes down and rises by at
    most one per call; and if it ends where it started, the adapter's
    fields [_value], [_lineNumbers] and [language] and the cached object
    are exactly what they were, and the local store is what it was or has
    been emptied (a model change to an editor without a model clears it
    and fires nothing). *)
Theorem changes_are_announced {M : Type} (a : Subscriptions.instance)
    (h : gmap nat (gmap string value)) (o : gmap string value)
    (calls : list (Services M * Subscriptions.Call M)) :
  h !! _value (Subscriptions.this a) = Some o ->
  Subscriptions.guards_ok calls = true ->
  exists r,
    Subscriptions.play calls a h = Normal r
    /\ _onDidChange (Subscriptions.this a) <= _onDidChange (Subscriptions.this r.1)
    /\ _onDidChange (Subscriptions.this r.1)
       <= _onDidChange (Subscriptions.this a) + length calls
    /\ (_onDidChange (Subscriptions.this r.1) = _onDidChange (Subscriptions.this a) ->
        Subscriptions.this r.1 = Subscriptions.this a
        /\ r.2 !! _value (Subscriptions.this a) = Some o
        /\ (Subscriptions._localDisposableStore r.1 = Subscriptions._localDisposableStore a
            \/ Subscriptions._localDisposableStore r.1 = [])).
Proof.
  intros Ho Hguards.
  destruct (play_stable _ calls a h (announced_stable a o) Hguards)
    as (r & Hplay & Hle & _ & Hsame).
  { split; [lia|]. split; [by eexists | by auto]. }
  exists r. split; [exact Hplay|]. split; [exact Hle|].
  split; [by eapply play_count | exact Hsame].
Qed.

Lemma changes_are_announced_witness :
  exists r,
    Subscriptions.play Sample2.quiet_calls Sample2.instance Sample.adapter.2 = Normal r
    /\ _onDidChange (Subscriptions.this r.1)
       <= _onDidChange (Subscriptions.this Sample2.instance) + 3.
Proof.
  destruct (changes_are_announced Sample2.instance Sample.adapter.2 _
              Sample2.quiet_calls (constructor_value _ _ _))
    as (r & Hplay & _ & Hbound & _).
  - reflexivity.
  - exists r. split; [exact Hplay | exact Hbound].
Defined.

(** The one change that is not announced: a model change to an editor
    without a model empties the local store, recomputes nothing and fires
    nothing. *)
Example model_change_without_model_clears_silently :
  Subscriptions.play
    [ ({| configurationService := Sample.cfg_on;
          notebookOptions := Sample.options_fontSize;
          notebookEditor := Sample.editor_without_model |},
       Subscriptions.ModelChange) ]
    Sample2.instance Sample.adapter.2
  = Normal ({| Subscriptions.this := Subscriptions.this Sample2.instance;
               Subscriptions._localDisposableStore := [] |},
            Sample.adapter.2)
  /\ Subscriptions._localDisposableStore Sample2.instance ≠ [].
Proof. split; [reflexivity | discriminate]. Qed.

(** X18: a configuration change that affects neither the [editor] nor
    the [notebook] section, a notebook options change with none of the
    four flags, a view model listener that is no longer in the local
    store, and a read: any sequence of these completes normally and
    leaves the adapter as it was (no recomputation, no notification)
    and every object of the store untouched. *)
Theorem ignored_calls_change_nothing {M : Type} (a : Subscriptions.instance)
    (h : gmap nat (gmap string value))
    (calls : list (Services M * Subscriptions.Call M)) :
  forallb (fun sc => Subscriptions.ignored a sc.2) calls = true ->
  exists h',
    Subscriptions.play calls a h = Normal (a, h')
    /\ forall l o, h !! l = Some o -> h' !! l = Some o.
Proof.
  revert h. induction calls as [|[s c] calls IH]; intros h Hignored.
  - by exists h.
  - cbn [forallb snd] in Hignored. apply andb_true_iff in Hignored as [Hc Hcalls].
    assert (exists h1, Subscriptions.dispatch s c a h = Normal (a, h1)
                       /\ forall l o, h !! l = Some o -> h1 !! l = Some o)
      as (h1 & Hstep & Hkept).
    { destruct c as [e | e | | listener | mode | md];
        cbn [Subscriptions.ignored] in Hc; try done.
      - exists h. split; [|done]. cbn. unfold Subscriptions.onDidChangeConfiguration.
        by destruct (Subscriptions.affectsConfiguration e "editor"),
             (Subscriptions.affectsConfiguration e "notebook").
      - exists h. split; [|done]. cbn. unfold Subscriptions.onDidChangeOptions.
        by destruct (Subscriptions.cellStatusBarVisibility e),
             (Subscriptions.editorTopPadding e),
             (Subscriptions.editorOptionsCustomizations e),
             (Subscriptions.cellBreakpointMargin e).
      - exists h. split; [|done]. cbn.
        destruct (Subscriptions._localDisposableStore a !! listener) eqn:Hl; [|done].
        rewrite bool_decide_eq_true_2 in Hc by by eexists. done.
      - eexists. split; [reflexivity|]. intros l o. apply getValue_old. }
    destruct (IH h1 Hcalls) as (h' & Hplay & Hkept').
    exists h'. split; [|by auto]. cbn [Subscriptions.play]. by rewrite Hstep.
Qed.

Lemma ignored_calls_change_nothing_witness :
  exists h',
    Subscriptions.play Sample2.quiet_calls Sample2.instance Sample.adapter.2
    = Normal (Sample2.instance, h').
Proof.
  destruct (ignored_calls_change_nothing Sample2.instance Sample.adapter.2
              Sample2.quiet_calls) as (h' & Hplay & _).
  - reflexivity.
  - exists h'. exact Hplay.
Defined.

(** X19: nothing is batched or skipped.  Over a sequence of
    [setLineNumbers] calls, configuration changes in the [editor] or
    [notebook] section and notebook options changes with one of the four
    flags, the adapter fires exactly one notification per call, also for
    calls that repeat the one before. *)
Theorem triggering_calls_fire_one_each {M : Type} (a : Subscriptions.instance)
    (h : gmap nat (gmap string value))
    (calls : list (Services M * Subscriptions.Call M)) :
  forallb (fun sc => Subscriptions.triggers sc.2) calls = true ->
  exists r,
    Subscriptions.play calls a h = Normal r
    /\ _onDidChange (Subscriptions.this r.1)
       = _onDidChange (Subscriptions.this a) + length calls
    /\ Subscriptions._localDisposableStore r.1 = Subscriptions._localDisposableStore a.
Proof.
  revert a h. induction calls as [|[s c] calls IH]; intros a h Htriggers.
  - exists (a, h). cbn. split; [done|]. split; [lia | done].
  - cbn [forallb snd] in Htriggers. apply andb_true_iff in Htriggers as [Hc Hcalls].
    assert (exists r1, Subscriptions.dispatch s c a h = Normal r1
                       /\ _onDidChange (Subscriptions.this r1.1)
                          = S (_onDidChange (Subscriptions.this a))
                       /\ Subscriptions._localDisposableStore r1.1
                          = Subscriptions._localDisposableStore a)
      as (r1 & Hstep & Hcount & Hstore).
    { destruct c as [e | e | | listener | mode | md];
        cbn [Subscriptions.triggers] in Hc; try done; cbn [Subscriptions.dispatch].
      - unfold Subscriptions.onDidChangeConfiguration. rewrite Hc.
        eexists. split; [reflexivity|]. rewrite recompute_unfold.
        cbn [fst Subscriptions.this Subscriptions._localDisposableStore].
        by rewrite (proj1 (_recomputeOptions_this _ _ _)).
      - unfold Subscriptions.onDidChangeOptions. rewrite Hc.
        eexists. split; [reflexivity|]. rewrite recompute_unfold.
        cbn [fst Subscriptions.this Subscriptions._localDisposableStore].
        by rewrite (proj1 (_recomputeOptions_this _ _ _)).
      - rewrite setLineNumbers_unfold. cbv zeta. by eexists. }
    destruct (IH r1.1 r1.2 Hcalls) as (r & Hplay & Hcount' & Hstore').
    exists r. cbn [Subscriptions.play]. rewrite Hstep.
    split; [exact Hplay|]. split; [cbn [length]; lia | congruence].
Qed.

Lemma triggering_calls_fire_one_each_witness :
  exists r,
    Subscriptions.play Sample2.loud_calls Sample2.instance Sample.adapter.2 = Normal r
    /\ _onDidChange (Subscriptions.this r.1)
       = _onDidChange (Subscriptions.this Sample2.instance) + 3.
Proof.
  destruct (triggering_calls_fire_one_each Sample2.instance Sample.adapter.2
              Sample2.loud_calls) as (r & Hplay & Hcount & _).
  - reflexivity.
  - exists r. split; [exact Hplay | exact Hcount].
Defined.
